(** * Billing and entitlement flow of the sales-research dashboard

    A shallow embedding of the three server-side procedures that touch the
    user/payment ledger:

    - [Dashboard.getData] and [Dashboard.DashboardLayout]
      (apps/nextjs/app/dashboard/layout.tsx): lazy provisioning of the
      local User row and of the billing customer;
    - [Webhook.POST] (the payment provider's webhook route);
    - [Billing.getData] and [Billing.BillingPage] (the billing page).

    The handlers are [async] functions that await the ORM and the payment
    provider one call after the other, so they are written in a small
    state-and-exception monad over a [World]: the relational store plus the
    log of the calls issued so far.  An exception keeps the writes that were
    already committed (the handlers open no transaction). *)

From Stdlib Require Import String List ZArith QArith Bool Lia.
From Stdlib Require Import Ascii Arith.
Import ListNotations.
Open Scope string_scope.

(** ** JavaScript coercions used by the handlers *)

Module Js.

(** Truthiness of a [string | null | undefined]: [!s] is [negb (truthy s)]. *)
Definition truthy (s : option string) : bool :=
  match s with
  | Some v => negb (v =? "")
  | None => false
  end.

(** [a ?? d] *)
Definition nullish {A : Type} (a : option A) (d : A) : A :=
  match a with
  | Some v => v
  | None => d
  end.

(** [String(x)] for [x : string | null]. *)
Definition String_ (x : option string) : string :=
  match x with
  | Some v => v
  | None => "null"
  end.

(** [a === b] between an optional string and a string literal. *)
Definition strict_eq (a : option string) (b : string) : bool :=
  match a with
  | Some v => v =? b
  | None => false
  end.

End Js.

(** ** Data model *)

(** Modelled from the spec: prisma/schema.prisma is not among the sources.
    The rows follow the persisted schema of the specification,
    [User(user_id PK, clerk_id UNIQUE, email, name, stripe_customer_id
    NULLABLE)] and [Payment(payment_id PK, user_id FK, stripe_payment_id,
    amount DECIMAL, currency, status)].  Primary keys are generated by the
    store; the model draws them from a counter.  [stripe_customer_id] is a
    unique column as well, since the webhook passes it to [findUnique]. *)
Record User := mkUser {
  user_id : nat;
  clerk_id : string;
  email : string;
  name : string;
  stripe_customer_id : option string
}.

(** [amount] is a JavaScript number handed to a DECIMAL column; the model
    keeps the exact quotient as a rational.  The double the handler
    computes reaches the column through its shortest decimal form, which is
    that quotient as long as it has at most fifteen significant digits,
    that is for amounts in minor units of magnitude below [10^15]. *)
Record Payment := mkPayment {
  payment_id : nat;
  pay_user_id : nat;
  stripe_payment_id : string;
  amount : Q;
  currency : string;
  status : string
}.

Record Db := mkDb {
  users : list User;
  payments : list Payment;
  next_user_id : nat;
  next_payment_id : nat
}.

(** The [data] argument of [prisma.payment.create], as the handler builds
    it: the [as string] casts of the handler check nothing, so a [null] of
    the session reaches the client in [stripe_payment_id] or [currency]. *)
Record PaymentData := mkPaymentData {
  d_stripe_payment_id : option string;
  d_user_id : nat;
  d_amount : Q;
  d_currency : option string;
  d_status : string
}.

(** The [where] argument of [prisma.user.findUnique]. *)
Inductive UserWhere :=
| ByClerkId (clerkId : string)
| ByStripeCustomerId (customerId : string).

(** Calls that leave the process, in the order they are awaited. *)
Inductive Call :=
| UserFindUnique (w : UserWhere)
| UserCreate (clerkId email name : string)
| UserUpdate (clerkId customerId : string)
| PaymentCreate (d : PaymentData)
| PaymentFindFirst (clerkId : string)
| StripeCustomersCreate (email : string)
| ConsoleLog (msg : string).

Definition is_write (c : Call) : bool :=
  match c with
  | UserCreate _ _ _ | UserUpdate _ _ | PaymentCreate _ => true
  | _ => false
  end.

Definition is_provider_call (c : Call) : bool :=
  match c with
  | StripeCustomersCreate _ => true
  | _ => false
  end.

Record World := mkWorld {
  db : Db;
  calls : list Call
}.

(** ** Exceptions and the handler monad *)

Inductive Exn :=
| JsError (msg : string)          (* [throw new Error(msg)] *)
| NextRedirect (url : string)     (* [redirect(url)] of next/navigation *)
| PrismaError (code : string)     (* a rejected ORM call *)
| StripeError (msg : string).     (* a rejected provider call *)

Inductive Outcome (A : Type) :=
| Returned (a : A)
| Thrown (e : Exn).
Arguments Returned {A} a.
Arguments Thrown {A} e.

Definition M (A : Type) : Type := World -> Outcome A * World.

Definition ret {A : Type} (a : A) : M A := fun w => (Returned a, w).

Definition throw {A : Type} (e : Exn) : M A := fun w => (Thrown e, w).

Definition bind {A B : Type} (m : M A) (k : A -> M B) : M B :=
  fun w =>
    match m w with
    | (Returned a, w') => k a w'
    | (Thrown e, w') => (Thrown e, w')
    end.

Definition lift {A : Type} (o : Outcome A) : M A := fun w => (o, w).

Declare Scope handler_scope.
Delimit Scope handler_scope with handler.
Notation "x <- m ;; k" := (bind m (fun x => k))
  (at level 61, m at next level, right associativity) : handler_scope.
Notation "m ;; k" := (bind m (fun _ => k))
  (at level 61, right associativity) : handler_scope.
Open Scope handler_scope.

Definition record (c : Call) : M unit :=
  fun w => (Returned tt, mkWorld (db w) (calls w ++ [c])).

Definition get_db : M Db := fun w => (Returned (db w), w).

Definition put_db (d : Db) : M unit :=
  fun w => (Returned tt, mkWorld d (calls w)).

(** ** The ORM client ([prisma]) *)

Module Prisma.

Definition has_clerk_id (c : string) (u : User) : bool := clerk_id u =? c.

Definition has_customer_id (c : string) (u : User) : bool :=
  Js.strict_eq (stripe_customer_id u) c.

Definition matches (w : UserWhere) : User -> bool :=
  match w with
  | ByClerkId c => has_clerk_id c
  | ByStripeCustomerId c => has_customer_id c
  end.

Definition set_customer (cid : string) (u : User) : User :=
  mkUser (user_id u) (clerk_id u) (email u) (name u) (Some cid).

(** The single row of a unique key is rewritten. *)
Fixpoint update_row (c : string) (f : User -> User) (us : list User)
  : list User :=
  match us with
  | [] => []
  | u :: rest =>
      if has_clerk_id c u then f u :: rest
      else u :: update_row c f rest
  end.

Definition owner (us : list User) (p : Payment) : option User :=
  find (fun u => user_id u =? pay_user_id p)%nat us.

(** The relation filter [where: { user: { clerk_id } }]. *)
Definition owned_by (us : list User) (c : string) (p : Payment) : bool :=
  match owner us p with
  | Some u => has_clerk_id c u
  | None => false
  end.

(** [prisma.user.findUnique({ where })] *)
Definition user_findUnique (w : UserWhere) : M (option User) :=
  record (UserFindUnique w) ;;
  d <- get_db ;;
  ret (find (matches w) (users d)).

(** [prisma.user.create({ data: { clerk_id, email, name } })]:
    [stripe_customer_id] is not given and stays null. *)
Definition user_create (c e n : string) : M unit :=
  record (UserCreate c e n) ;;
  d <- get_db ;;
  if existsb (has_clerk_id c) (users d) then
    throw (PrismaError "P2002")
  else
    put_db (mkDb (users d ++ [mkUser (next_user_id d) c e n None])
                 (payments d) (S (next_user_id d)) (next_payment_id d)).

(** [prisma.user.update({ where: { clerk_id },
    data: { stripe_customer_id } })] *)
Definition user_update (c cid : string) : M unit :=
  record (UserUpdate c cid) ;;
  d <- get_db ;;
  if negb (existsb (has_clerk_id c) (users d)) then
    throw (PrismaError "P2025")
  else if existsb (fun u => negb (has_clerk_id c u) && has_customer_id cid u)
                  (users d) then
    throw (PrismaError "P2002")
  else
    put_db (mkDb (update_row c (set_customer cid) (users d))
                 (payments d) (next_user_id d) (next_payment_id d)).

(** [prisma.payment.create({ data })].  [stripe_payment_id] and [currency]
    are required columns: the client rejects a [null] for either before
    anything is sent to the store. *)
Definition payment_create (pd : PaymentData) : M unit :=
  record (PaymentCreate pd) ;;
  match d_stripe_payment_id pd, d_currency pd with
  | Some payment_ref, Some cur =>
      d <- get_db ;;
      if negb (existsb (fun u => user_id u =? d_user_id pd)%nat (users d)) then
        throw (PrismaError "P2003")
      else
        put_db (mkDb (users d)
                     (payments d ++
                        [mkPayment (next_payment_id d) (d_user_id pd)
                           payment_ref (d_amount pd) cur (d_status pd)])
                     (next_user_id d) (S (next_payment_id d)))
  | _, _ => throw (PrismaError "PrismaClientValidationError")
  end.

(** [prisma.payment.findFirst({ where: { user: { clerk_id } } })]: the
    first row, in the store's order, whose owner has the given key. *)
Definition payment_findFirst (c : string) : M (option Payment) :=
  record (PaymentFindFirst c) ;;
  d <- get_db ;;
  ret (find (owned_by (users d) c) (payments d)).

End Prisma.

(** ** The payment provider's SDK ([stripe]) *)

Module Stripe.

(** [Stripe.Checkout.Session], restricted to the fields the webhook
    reads.  In a webhook payload [customer] and [payment_intent] are
    [string | null], [currency] is [string | null], and [amount_total] is
    [number | null], in minor units; [mode] and [payment_status] are never
    null. *)
Record Session := mkSession {
  mode : string;
  customer : option string;
  payment_intent : option string;
  amount_total : option Z;
  currency : option string;
  payment_status : string
}.

(** [event.data.object] is kept under the cast the handler applies to it,
    [as Stripe.Checkout.Session], whatever the event kind. *)
Record Event := mkEvent {
  type : string;
  data_object : Session
}.

Record Customer := mkCustomer {
  id : string
}.

(** The two entry points of the SDK the handlers call.  Both may throw:
    [constructEvent (body, signature, secret)] on a signature that does
    not verify, [customers.create ({ email })] on a provider failure. *)
Class Client := {
  webhooks_constructEvent :
    string -> option string -> option string -> Outcome Event;
  customers_create_response : string -> Outcome Customer
}.

Definition customers_create {stripe : Client} (email : string) : M Customer :=
  record (StripeCustomersCreate email) ;;
  lift (customers_create_response email).

End Stripe.

(** ** The identity provider's session ([@clerk/nextjs/server]) *)

Module Clerk.

Record EmailAddress := mkEmailAddress {
  emailAddress : string
}.

Record ClerkUser := mkClerkUser {
  emailAddresses : list EmailAddress;
  firstName : option string;
  lastName : option string;
  imageUrl : string
}.

(** What [auth()] and [currentUser()] yield for the request at hand. *)
Record Session := mkSession {
  userId : option string;
  currentUser : option ClerkUser
}.

End Clerk.

Definition console_log (msg : string) : M unit := record (ConsoleLog msg).

(** [redirect(url)] never returns: it throws the framework's redirect. *)
Definition redirect {A : Type} (url : string) : M A := throw (NextRedirect url).

(** ** apps/nextjs/app/dashboard/layout.tsx *)

Module Dashboard.
Section Layout.

Context {stripe : Stripe.Client}.

(** [select] narrows the fetched row to [user_id] and
    [stripe_customer_id]; the model keeps the row and reads only those. *)
Definition getData (email clerkId : string)
    (firstName lastName profileImage : option string) : M unit :=
  user <- Prisma.user_findUnique (ByClerkId clerkId) ;;
  user <- match user with
          | None =>
              let name :=
                Js.nullish firstName "" ++ " " ++ Js.nullish lastName "" in
              Prisma.user_create clerkId email name ;;
              Prisma.user_findUnique (ByClerkId clerkId)
          | Some _ => ret user
          end ;;
  if negb (Js.truthy (match user with
                      | Some u => stripe_customer_id u
                      | None => None
                      end)) then
    console_log "Creating stripe customer" ;;
    data <- Stripe.customers_create email ;;
    Prisma.user_update clerkId (Stripe.id data) ;;
    _ <- Prisma.user_findUnique (ByClerkId clerkId) ;;
    ret tt
  else
    ret tt.

(** The rendered tree: the sidebar shell around [children]. *)
Inductive View (Node : Type) :=
| SidebarShell (children : Node).

Definition DashboardLayout {Node : Type} (session : Clerk.Session)
    (children : Node) : M (View Node) :=
  let userId := Clerk.userId session in
  let user := Clerk.currentUser session in
  match Js.truthy userId, userId, user with
  | true, Some userId, Some user =>
      let email :=
        option_map Clerk.emailAddress (hd_error (Clerk.emailAddresses user)) in
      let firstName := Clerk.firstName user in
      let lastName := Clerk.lastName user in
      let profileImage := Some (Clerk.imageUrl user) in
      match Js.truthy email, email with
      | true, Some email =>
          getData email userId firstName lastName profileImage ;;
          ret (SidebarShell Node children)
      | _, _ => redirect "/"
      end
  | _, _, _ => redirect "/"
  end.

End Layout.
End Dashboard.

(** ** The webhook route of the payment provider *)

Module Webhook.

(** The request as the handler reads it: [req.text()] and
    [headers().get("Stripe-Signature")]. *)
Record Request := mkRequest {
  text : string;
  stripe_signature : option string
}.

Record Response := mkResponse {
  body : option string;
  status_code : Z
}.

Section Route.

Context {stripe : Stripe.Client}.

(** [process.env.STRIPE_WEBHOOK_SECRET] *)
Variable STRIPE_WEBHOOK_SECRET : option string.

Definition POST (req : Request) : M Response :=
  let body := text req in
  let signature := stripe_signature req in
  match Stripe.webhooks_constructEvent body signature STRIPE_WEBHOOK_SECRET with
  | Thrown _ => ret (mkResponse (Some "Webhook error") 400)
  | Returned event =>
      let session := Stripe.data_object event in
      (if Stripe.type event =? "checkout.session.completed" then
         if Stripe.mode session =? "subscription" then
           ret tt
         else if Stripe.mode session =? "payment" then
           let customerId := Js.String_ (Stripe.customer session) in
           user <- Prisma.user_findUnique (ByStripeCustomerId customerId) ;;
           match user with
           | None => throw (JsError "User not found")
           | Some user =>
               Prisma.payment_create
                 (mkPaymentData
                    (Stripe.payment_intent session)
                    (user_id user)
                    (inject_Z (Js.nullish (Stripe.amount_total session) 0%Z)
                       / inject_Z 100)%Q
                    (Stripe.currency session)
                    (Stripe.payment_status session))
           end
         else
           ret tt
       else
         ret tt) ;;
      (if Stripe.type event =? "invoice.payment_succeeded" then
         ret tt
       else
         ret tt) ;;
      ret (mkResponse None 200)
  end.

End Route.
End Webhook.

(** ** The billing page *)

Module Billing.

(** The [select] of the page's query: the payment's [status] and its
    owner's [stripe_customer_id]. *)
Record Data := mkData {
  data_status : string;
  data_user_stripe_customer_id : option string
}.

Definition getData (clerkId : string) : M (option Data) :=
  p <- Prisma.payment_findFirst clerkId ;;
  d <- get_db ;;
  ret (option_map
         (fun p =>
            mkData (status p)
                   (match Prisma.owner (users d) p with
                    | Some u => stripe_customer_id u
                    | None => None
                    end))
         p).

(** The two branches of the page body. *)
Inductive View :=
| ManageSubscription
| OfferPurchase.

(** The server actions [createSubscription] and [createCustomerPortal]
    are only bound to the forms; rendering does not run them. *)
Definition BillingPage (session : Clerk.Session) : M View :=
  let clerkId := Clerk.userId session in
  match Js.truthy clerkId, clerkId with
  | true, Some clerkId =>
      data <- getData clerkId ;;
      ret (if Js.strict_eq (option_map data_status data) "paid"
           then ManageSubscription
           else OfferPurchase)
  | _, _ => redirect "/"
  end.

End Billing.

(** ** JavaScript string operations used by the pages

    A character of the model stands for one UTF-16 code unit of the
    JavaScript string. *)

Module JsString.

(** [a || b] on a [string | null | undefined] and a string. *)
Definition or_else (a : option string) (b : string) : string :=
  match a with
  | Some v => if v =? "" then b else v
  | None => b
  end.

(** [s.includes(c)] for a one-character [c]. *)
Fixpoint includes (c : ascii) (s : string) : bool :=
  match s with
  | EmptyString => false
  | String a rest => Ascii.eqb a c || includes c rest
  end.

(** [s.split(c)] for a one-character [c]: never empty. *)
Fixpoint split (c : ascii) (s : string) : list string :=
  match s with
  | EmptyString => [EmptyString]
  | String a rest =>
      if Ascii.eqb a c then EmptyString :: split c rest
      else match split c rest with
           | piece :: pieces => String a piece :: pieces
           | [] => [String a EmptyString]
           end
  end.

(** [s[0]] *)
Definition first_char (s : string) : option ascii :=
  match s with
  | String a _ => Some a
  | EmptyString => None
  end.

(** A character, or [undefined], inside a template literal. *)
Definition interpolate (o : option ascii) : string :=
  match o with
  | Some a => String a EmptyString
  | None => "undefined"
  end.

End JsString.

(** ** The server actions bound to the billing page's forms *)

Module BillingActions.

(** The argument of [getStripeSession]. *)
Record CheckoutParams := mkCheckoutParams {
  customerId : string;
  domainUrl : string;
  priceId : option string
}.

(** The argument of [stripe.billingPortal.sessions.create]. *)
Record PortalParams := mkPortalParams {
  customer : option string;
  return_url : string
}.

Record PortalSession := mkPortalSession {
  url : string
}.

(** Modelled from the spec: [getStripeSession] of lib/stripe is not among
    the sources.  It takes the customer reference, the return domain and
    the price identifier, and yields the URL of the hosted checkout or
    throws; [billingPortal.sessions.create] is the SDK's.  Both are read as
    functions of their argument; they touch no local state and are not
    entered in the call log. *)
Class Hosted := {
  getStripeSession : CheckoutParams -> Outcome string;
  billingPortal_sessions_create : PortalParams -> Outcome PortalSession
}.

(** [process.env] as the two actions read it. *)
Record Env := mkEnv {
  NEXTAUTH_URL : option string;
  STRIPE_PRICE_ID : option string
}.

Section Actions.

Context {hosted : Hosted}.

Variable env : Env.

(** [createSubscription], closed over the page's [clerkId].  The log keeps
    the label of each [console.log]; the inspected value is left out. *)
Definition createSubscription (clerkId : string) : M unit :=
  dbUser <- Prisma.user_findUnique (ByClerkId clerkId) ;;
  console_log "User found:" ;;
  console_log "Stripe customer ID:" ;;
  let stripe_customer_id :=
    match dbUser with
    | Some u => stripe_customer_id u
    | None => None
    end in
  match Js.truthy stripe_customer_id, stripe_customer_id with
  | true, Some customerId =>
      subscriptionUrl <-
        lift (getStripeSession
                (mkCheckoutParams customerId
                   (JsString.or_else (NEXTAUTH_URL env) "http://localhost:3000")
                   (STRIPE_PRICE_ID env))) ;;
      redirect subscriptionUrl
  | _, _ =>
      throw (JsError
        "No stripe customer id found. Please refresh the page and try again.")
  end.

(** [createCustomerPortal], closed over the [data] the page fetched when it
    was rendered. *)
Definition createCustomerPortal (data : option Billing.Data) : M unit :=
  session <-
    lift (billingPortal_sessions_create
            (mkPortalParams
               (match data with
                | Some d => Billing.data_user_stripe_customer_id d
                | None => None
                end)
               (JsString.or_else (NEXTAUTH_URL env) "http://localhost:3000"
                  ++ "/dashboard/billing"))) ;;
  redirect (url session).

End Actions.
End BillingActions.

(** ** The account menu of the navigation bar ([UserNav]) *)

Module UserNav.

(** What [useUser()] yields for a signed-in user, restricted to the fields
    the menu reads. *)
Record UserResource := mkUserResource {
  fullName : option string;
  firstName : option string;
  emailAddresses : list Clerk.EmailAddress;
  imageUrl : string
}.

Definition space : ascii := " "%char.

(** The text of [AvatarFallback].  Indexing a piece that does not exist
    would throw a [TypeError] while rendering. *)
Definition avatar_fallback (name : string) : Outcome string :=
  if JsString.includes space name then
    match nth_error (JsString.split space name) 0,
          nth_error (JsString.split space name) 1 with
    | Some p0, Some p1 =>
        Returned (JsString.interpolate (JsString.first_char p0)
                  ++ JsString.interpolate (JsString.first_char p1))
    | _, _ =>
        Thrown (JsError "TypeError: Cannot read properties of undefined")
    end
  else
    Returned (substring 0 3 name).

(** [navItems] *)
Definition navItems : list (string * string) :=
  [ ("Home", "/dashboard"); ("Billing", "/dashboard/billing") ].

(** What the menu shows. *)
Record View := mkView {
  view_name : string;
  view_email : string;
  view_fallback : string;
  view_image : option string;
  view_items : list (string * string)
}.

Definition UserNav (user : option UserResource) : Outcome View :=
  let name :=
    JsString.or_else
      (match user with Some u => fullName u | None => None end)
      (JsString.or_else
         (match user with Some u => firstName u | None => None end)
         "User") in
  let email :=
    JsString.or_else
      (match user with
       | Some u => option_map Clerk.emailAddress (hd_error (emailAddresses u))
       | None => None
       end)
      "" in
  let image := match user with Some u => Some (imageUrl u) | None => None end in
  match avatar_fallback name with
  | Returned fallback =>
      Returned (mkView name email fallback
                  (if Js.truthy image then image else None)
                  navItems)
  | Thrown e => Thrown e
  end.

End UserNav.

(** ** Vocabulary of the statements *)

(** A computation only ever extends the call log. *)
Definition appends {A : Type} (m : M A) : Prop :=
  forall w, exists more, calls (snd (m w)) = (calls w ++ more)%list.

(** The integrity constraints of the schema: unique subject ids, primary
    keys drawn from the counter, and the foreign key of Payment. *)
Record consistent (d : Db) : Prop := mkConsistent {
  clerk_ids_unique : NoDup (map clerk_id (users d));
  user_ids_unique : NoDup (map user_id (users d));
  user_ids_allocated :
    forall u, In u (users d) -> (user_id u < next_user_id d)%nat;
  payments_owned :
    forall p, In p (payments d) ->
              exists u, In u (users d) /\ user_id u = pay_user_id p
}.

(** A computation keeps a property of the store, however it ends. *)
Definition preserves (I : Db -> Prop) {A : Type} (m : M A) : Prop :=
  forall w, I (db w) -> I (db (snd (m w))).

Section ProvisioningTerms.

Variables (email clerkId : string).
Variables (firstName lastName : option string).

(** The [name] column of a freshly created row. *)
Definition display_name : string :=
  Js.nullish firstName "" ++ " " ++ Js.nullish lastName "".

(** What the lookup by subject id reads for [user?.stripe_customer_id]. *)
Definition customer_of (us : list User) : option string :=
  match find (Prisma.has_clerk_id clerkId) us with
  | Some u => stripe_customer_id u
  | None => None
  end.

(** The calls of a visit that has to create both the row and the customer. *)
Definition first_visit_calls (cid : string) : list Call :=
  [ UserFindUnique (ByClerkId clerkId);
    UserCreate clerkId email display_name;
    UserFindUnique (ByClerkId clerkId);
    ConsoleLog "Creating stripe customer";
    StripeCustomersCreate email;
    UserUpdate clerkId cid;
    UserFindUnique (ByClerkId clerkId) ].

End ProvisioningTerms.

(** The effect of the provisioning routine on the store, read as a function
    of the store and of the provider's answer. *)
Section ProvisioningStore.

Context {stripe : Stripe.Client}.

Variables (email clerkId : string).
Variables (firstName lastName : option string).

(** Another row already holds the customer id: the unique column rejects
    the update. *)
Definition other_holder (cid : string) (us : list User) : bool :=
  existsb (fun u => negb (Prisma.has_clerk_id clerkId u)
                    && Prisma.has_customer_id cid u) us.

(** The store once the row of the subject id is there. *)
Definition with_row (d : Db) : Db :=
  match find (Prisma.has_clerk_id clerkId) (users d) with
  | Some _ => d
  | None =>
      mkDb (users d ++
              [mkUser (next_user_id d) clerkId email
                 (display_name firstName lastName) None])
           (payments d) (S (next_user_id d)) (next_payment_id d)
  end.

(** The store once the customer id is written on that row. *)
Definition with_customer (cid : string) (d : Db) : Db :=
  mkDb (Prisma.update_row clerkId (Prisma.set_customer cid) (users d))
       (payments d) (next_user_id d) (next_payment_id d).

Definition provision (d : Db) : Outcome unit * Db :=
  let d1 := with_row d in
  if Js.truthy (customer_of clerkId (users d1)) then (Returned tt, d1)
  else
    match Stripe.customers_create_response email with
    | Thrown e => (Thrown e, d1)
    | Returned cust =>
        if other_holder (Stripe.id cust) (users d1) then
          (Thrown (PrismaError "P2002"), d1)
        else
          (Returned tt, with_customer (Stripe.id cust) d1)
    end.

End ProvisioningStore.

(** What the identity provider reports on one visit. *)
Record Visit := mkVisit {
  visit_email : string;
  visit_firstName : option string;
  visit_lastName : option string;
  visit_profileImage : option string
}.

(** The same user comes back, visit after visit. *)
Fixpoint revisit {stripe : Stripe.Client} (clerkId : string)
    (visits : list Visit) : M unit :=
  match visits with
  | [] => ret tt
  | v :: rest =>
      Dashboard.getData (visit_email v) clerkId (visit_firstName v)
        (visit_lastName v) (visit_profileImage v) ;;
      revisit clerkId rest
  end.

(** The rows of the other users. *)
Definition others (clerkId : string) (us : list User) : list User :=
  filter (fun u => negb (Prisma.has_clerk_id clerkId u)) us.

(** The return domain both server actions use:
    [process.env.NEXTAUTH_URL || 'http://localhost:3000']. *)
Definition return_domain (env : BillingActions.Env) : string :=
  JsString.or_else (BillingActions.NEXTAUTH_URL env) "http://localhost:3000".

(** The name the account menu shows for a user:
    [user?.fullName || user?.firstName || 'User']. *)
Definition menu_name (user : option UserNav.UserResource) : string :=
  JsString.or_else
    (match user with Some u => UserNav.fullName u | None => None end)
    (JsString.or_else
       (match user with Some u => UserNav.firstName u | None => None end)
       "User").

(** The e-mail address the layout reads from the identity assertion:
    [user.emailAddresses[0]?.emailAddress]. *)
Definition session_email (session : Clerk.Session) : option string :=
  match Clerk.currentUser session with
  | Some user =>
      option_map Clerk.emailAddress (hd_error (Clerk.emailAddresses user))
  | None => None
  end.

Section WebhookTerms.

Context {stripe : Stripe.Client}.

Variable secret : option string.

(** The delivery passes the signature check and decodes to [event]. *)
Definition verified (req : Webhook.Request) (event : Stripe.Event) : Prop :=
  Stripe.webhooks_constructEvent (Webhook.text req)
    (Webhook.stripe_signature req) secret = Returned event.

(** The dispatch reaches the one-time-payment branch. *)
Definition is_payment_checkout (event : Stripe.Event) : bool :=
  (Stripe.type event =? "checkout.session.completed")
  && negb (Stripe.mode (Stripe.data_object event) =? "subscription")
  && (Stripe.mode (Stripe.data_object event) =? "payment").

(** The row the handler asks the store to insert for a session. *)
Definition payment_data (session : Stripe.Session) (user : User)
  : PaymentData :=
  mkPaymentData
    (Stripe.payment_intent session)
    (user_id user)
    (inject_Z (Js.nullish (Stripe.amount_total session) 0%Z) / inject_Z 100)%Q
    (Stripe.currency session)
    (Stripe.payment_status session).

Definition customer_where (session : Stripe.Session) : UserWhere :=
  ByStripeCustomerId (Js.String_ (Stripe.customer session)).

(** The row the store keeps for the data of an insertion, when the client
    accepts them: both required columns are given. *)
Definition row_of (d : Db) (pd : PaymentData) : option Payment :=
  match d_stripe_payment_id pd, d_currency pd with
  | Some payment_ref, Some cur =>
      Some (mkPayment (next_payment_id d) (d_user_id pd) payment_ref
              (d_amount pd) cur (d_status pd))
  | _, _ => None
  end.

End WebhookTerms.

Section EntitlementTerms.

Variable clerkId : string.

(** A Payment row with status ["paid"] owned by the user exists. *)
Definition has_paid_row (d : Db) : bool :=
  existsb (fun p => Prisma.owned_by (users d) clerkId p
                    && (status p =? "paid"))
          (payments d).

(** The status of the first Payment row owned by the user, if any. *)
Definition first_row_status (d : Db) : option string :=
  option_map status (find (Prisma.owned_by (users d) clerkId) (payments d)).

(** The user owns at most one Payment row. *)
Definition at_most_one_row (d : Db) : Prop :=
  (length (filter (Prisma.owned_by (users d) clerkId) (payments d)) <= 1)%nat.

End EntitlementTerms.

(** ** Test doubles used by the concrete runs *)

Module Fixture.

(** A provider double: a delivery verifies when it carries the signature
    ["t=1,v1=ok"] under the secret ["whsec_test"], and its body is then
    decoded through [table]; [customers.create] yields [cust]. *)
Definition client (table : list (string * Stripe.Event))
    (cust : Outcome Stripe.Customer) : Stripe.Client :=
  {| Stripe.webhooks_constructEvent := fun body signature secret =>
       if Js.strict_eq signature "t=1,v1=ok"
          && Js.strict_eq secret "whsec_test" then
         match find (fun e => fst e =? body) table with
         | Some e => Returned (snd e)
         | None => Thrown (StripeError "Unexpected token")
         end
       else
         Thrown (StripeError "No signatures found matching the payload");
     Stripe.customers_create_response := fun _ => cust |}.

Definition empty_world : World := mkWorld (mkDb [] [] 0 0) [].

Definition u_1 : User := mkUser 0 "u_1" "a@b.com" "A B" (Some "cus_123").

Definition world_u_1 : World := mkWorld (mkDb [u_1] [] 1 0) [].

Definition checkout (mode : string) (customer : option string)
    (payment_intent : string) (amount_total : option Z)
    (payment_status : string) : Stripe.Event :=
  Stripe.mkEvent "checkout.session.completed"
    (Stripe.mkSession mode customer (Some payment_intent) amount_total
       (Some "usd") payment_status).

(** A checkout that needed no payment: the session has no payment
    reference. *)
Definition free_checkout : Stripe.Event :=
  Stripe.mkEvent "checkout.session.completed"
    (Stripe.mkSession "payment" (Some "cus_123") None (Some 0%Z) (Some "usd")
       "no_payment_required").

(** A session with neither an amount nor a currency. *)
Definition bare_checkout : Stripe.Event :=
  Stripe.mkEvent "checkout.session.completed"
    (Stripe.mkSession "payment" (Some "cus_123") (Some "pi_5") None None
       "paid").

(** The deliveries the concrete runs use, by body. *)
Definition deliveries : list (string * Stripe.Event) :=
  [ ("evt_paid",
     checkout "payment" (Some "cus_123") "pi_1" (Some 4000%Z) "paid");
    ("evt_unpaid",
     checkout "payment" (Some "cus_123") "pi_0" (Some 4000%Z) "unpaid");
    ("evt_stranger",
     checkout "payment" (Some "cus_999") "pi_2" (Some 4000%Z) "paid");
    ("evt_no_amount", checkout "payment" (Some "cus_123") "pi_3" None "paid");
    ("evt_subscription",
     checkout "subscription" (Some "cus_123") "pi_4" (Some 4000%Z) "paid");
    ("evt_free", free_checkout);
    ("evt_bare", bare_checkout) ].

Definition provider_up : Stripe.Client :=
  client deliveries (Returned (Stripe.mkCustomer "cus_123")).

Definition provider_down : Stripe.Client :=
  client deliveries (Thrown (StripeError "api_connection_error")).

Definition secret : option string := Some "whsec_test".

Definition signed (body : string) : Webhook.Request :=
  Webhook.mkRequest body (Some "t=1,v1=ok").

Definition clerk_session : Clerk.Session :=
  Clerk.mkSession (Some "u_1")
    (Some (Clerk.mkClerkUser [Clerk.mkEmailAddress "a@b.com"]
             (Some "A") (Some "B") "https://img.example/u_1.png")).

(** A second user, and stores for the runs of the pages. *)
Definition u_2 : User := mkUser 1 "u_2" "c@d.com" "C D" (Some "cus_456").

Definition bare_u_1 : User := mkUser 0 "u_1" "a@b.com" "A B" None.

Definition world_bare : World := mkWorld (mkDb [bare_u_1; u_2] [] 2 0) [].

Definition paid_row : Payment := mkPayment 0 0 "pi_1" 40 "usd" "paid".

Definition world_paid : World := mkWorld (mkDb [u_1; u_2] [paid_row] 2 1) [].

Definition world_two : World := mkWorld (mkDb [u_1; u_2] [] 2 0) [].

(** Doubles of the hosted checkout and of the billing portal. *)
Definition hosted_up : BillingActions.Hosted :=
  {| BillingActions.getStripeSession := fun p =>
       Returned ("https://checkout.test/" ++ BillingActions.customerId p);
     BillingActions.billingPortal_sessions_create := fun p =>
       Returned (BillingActions.mkPortalSession "https://portal.test/s_1") |}.

Definition hosted_down : BillingActions.Hosted :=
  {| BillingActions.getStripeSession := fun _ =>
       Thrown (StripeError "resource_missing");
     BillingActions.billingPortal_sessions_create := fun _ =>
       Thrown (StripeError "resource_missing") |}.

Definition env_unset : BillingActions.Env :=
  BillingActions.mkEnv None (Some "price_1").

Definition signed_out : Clerk.Session := Clerk.mkSession None None.

End Fixture.

(** * Properties *)

Open Scope list_scope.

(** ** Running the monad *)

Lemma run_bind {A B : Type} (m : M A) (k : A -> M B) (w w' : World) (a : A) :
  m w = (Returned a, w') -> bind m k w = k a w'.
Proof. intros E. unfold bind. rewrite E. reflexivity. Qed.

Lemma run_bind_thrown {A B : Type} (m : M A) (k : A -> M B) (w w' : World)
    (e : Exn) :
  m w = (Thrown e, w') -> bind m k w = (Thrown e, w').
Proof. intros E. unfold bind. rewrite E. reflexivity. Qed.

(** ** The store *)

Lemma find_none_existsb {A : Type} (f : A -> bool) (l : list A) :
  find f l = None <-> existsb f l = false.
Proof.
  induction l as [|x l IH]; simpl.
  - tauto.
  - destruct (f x); simpl.
    + split; discriminate.
    + exact IH.
Qed.

Lemma find_snoc_fresh {A : Type} (f : A -> bool) (l : list A) (x : A) :
  find f l = None -> f x = true -> find f (l ++ [x]) = Some x.
Proof.
  induction l as [|y l IH]; simpl; intros N T.
  - rewrite T. reflexivity.
  - destruct (f y); [discriminate|]. apply IH; assumption.
Qed.

Lemma filter_snoc_fresh {A : Type} (f : A -> bool) (l : list A) (x : A) :
  find f l = None -> f x = true -> filter f (l ++ [x]) = [x].
Proof.
  induction l as [|y l IH]; simpl; intros N T.
  - rewrite T. reflexivity.
  - destruct (f y); [discriminate|]. apply IH; assumption.
Qed.

Lemma update_row_snoc_fresh (c : string) (f : User -> User) (us : list User)
    (u : User) :
  find (Prisma.has_clerk_id c) us = None ->
  Prisma.has_clerk_id c u = true ->
  Prisma.update_row c f (us ++ [u]) = us ++ [f u].
Proof.
  induction us as [|v us IH]; simpl; intros N T.
  - rewrite T. reflexivity.
  - destruct (Prisma.has_clerk_id c v); [discriminate|].
    rewrite IH by assumption. reflexivity.
Qed.

Lemma existsb_snoc {A : Type} (f : A -> bool) (l : list A) (x : A) :
  existsb f (l ++ [x]) = existsb f l || f x.
Proof. rewrite existsb_app. simpl. rewrite orb_false_r. reflexivity. Qed.

Lemma has_clerk_id_refl (c : string) (i : nat) (e n : string)
    (s : option string) :
  Prisma.has_clerk_id c (mkUser i c e n s) = true.
Proof. unfold Prisma.has_clerk_id. simpl. apply String.eqb_refl. Qed.

(** ** The ORM calls, one at a time *)

Lemma run_user_findUnique (wh : UserWhere) (w : World) :
  Prisma.user_findUnique wh w =
  (Returned (find (Prisma.matches wh) (users (db w))),
   mkWorld (db w) (calls w ++ [UserFindUnique wh])).
Proof. reflexivity. Qed.

Lemma run_user_create (c e n : string) (w : World) :
  find (Prisma.has_clerk_id c) (users (db w)) = None ->
  Prisma.user_create c e n w =
  (Returned tt,
   mkWorld (mkDb (users (db w) ++ [mkUser (next_user_id (db w)) c e n None])
                 (payments (db w)) (S (next_user_id (db w)))
                 (next_payment_id (db w)))
           (calls w ++ [UserCreate c e n])).
Proof.
  intros N. apply find_none_existsb in N.
  unfold Prisma.user_create, bind, record, get_db. simpl.
  rewrite N. reflexivity.
Qed.

Lemma run_user_update (c cid : string) (w : World) :
  existsb (Prisma.has_clerk_id c) (users (db w)) = true ->
  existsb (fun u => negb (Prisma.has_clerk_id c u)
                    && Prisma.has_customer_id cid u) (users (db w)) = false ->
  Prisma.user_update c cid w =
  (Returned tt,
   mkWorld (mkDb (Prisma.update_row c (Prisma.set_customer cid) (users (db w)))
                 (payments (db w)) (next_user_id (db w))
                 (next_payment_id (db w)))
           (calls w ++ [UserUpdate c cid])).
Proof.
  intros E U.
  unfold Prisma.user_update, bind, record, get_db. simpl.
  rewrite E, U. reflexivity.
Qed.

Lemma run_payment_create (pd : PaymentData) (w : World) (row : Payment) :
  row_of (db w) pd = Some row ->
  existsb (fun u => user_id u =? d_user_id pd)%nat (users (db w)) = true ->
  Prisma.payment_create pd w =
  (Returned tt,
   mkWorld (mkDb (users (db w)) (payments (db w) ++ [row])
                 (next_user_id (db w)) (S (next_payment_id (db w))))
           (calls w ++ [PaymentCreate pd])).
Proof.
  unfold row_of. intros R E.
  unfold Prisma.payment_create, bind, record, get_db. simpl.
  destruct (d_stripe_payment_id pd) as [payment_ref|]; [|discriminate].
  destruct (d_currency pd) as [cur|]; [|discriminate].
  injection R as R. subst row. cbn [db]. rewrite E. reflexivity.
Qed.

Lemma run_payment_create_rejected (pd : PaymentData) (w : World) :
  row_of (db w) pd = None ->
  Prisma.payment_create pd w =
  (Thrown (PrismaError "PrismaClientValidationError"),
   mkWorld (db w) (calls w ++ [PaymentCreate pd])).
Proof.
  unfold row_of. intros R.
  unfold Prisma.payment_create, bind, record, throw. simpl.
  destruct (d_stripe_payment_id pd) as [payment_ref|]; [|reflexivity].
  destruct (d_currency pd) as [cur|]; [discriminate|reflexivity].
Qed.

Lemma run_customers_create {stripe : Stripe.Client} (e : string) (w : World) :
  Stripe.customers_create e w =
  (Stripe.customers_create_response e,
   mkWorld (db w) (calls w ++ [StripeCustomersCreate e])).
Proof.
  unfold Stripe.customers_create, bind, record, lift. simpl.
  destruct (Stripe.customers_create_response e); reflexivity.
Qed.

(** ** The call log only grows *)

Lemma appends_ret {A : Type} (a : A) : appends (ret a).
Proof. intros w. exists []. simpl. symmetry. apply app_nil_r. Qed.

Lemma appends_throw {A : Type} (e : Exn) : appends (@throw A e).
Proof. intros w. exists []. simpl. symmetry. apply app_nil_r. Qed.

Lemma appends_lift {A : Type} (o : Outcome A) : appends (lift o).
Proof. intros w. exists []. simpl. symmetry. apply app_nil_r. Qed.

Lemma appends_get_db : appends get_db.
Proof. intros w. exists []. simpl. symmetry. apply app_nil_r. Qed.

Lemma appends_put_db (d : Db) : appends (put_db d).
Proof. intros w. exists []. simpl. symmetry. apply app_nil_r. Qed.

Lemma appends_record (c : Call) : appends (record c).
Proof. intros w. exists [c]. reflexivity. Qed.

Lemma appends_bind {A B : Type} (m : M A) (k : A -> M B) :
  appends m -> (forall a, appends (k a)) -> appends (bind m k).
Proof.
  intros Hm Hk w. unfold bind.
  destruct (Hm w) as [more1 E1].
  destruct (m w) as [[a|e] w1]; simpl in E1.
  - destruct (Hk a w1) as [more2 E2].
    exists (more1 ++ more2). rewrite E2, E1. symmetry. apply app_assoc.
  - exists more1. exact E1.
Qed.

Lemma appends_if {A : Type} (b : bool) (m1 m2 : M A) :
  appends m1 -> appends m2 -> appends (if b then m1 else m2).
Proof. destruct b; trivial. Qed.

Create HintDb appends.

#[local] Hint Resolve appends_ret appends_throw appends_lift appends_get_db
  appends_put_db appends_record appends_if : appends.

Ltac appends_bind :=
  repeat (apply appends_bind; [|intro]); auto with appends.

Lemma appends_user_findUnique (wh : UserWhere) :
  appends (Prisma.user_findUnique wh).
Proof. unfold Prisma.user_findUnique. appends_bind. Qed.

Lemma appends_user_create (c e n : string) : appends (Prisma.user_create c e n).
Proof. unfold Prisma.user_create. appends_bind. Qed.

Lemma appends_user_update (c cid : string) : appends (Prisma.user_update c cid).
Proof. unfold Prisma.user_update. appends_bind. Qed.

Lemma appends_customers_create {stripe : Stripe.Client} (e : string) :
  appends (Stripe.customers_create e).
Proof. unfold Stripe.customers_create. appends_bind. Qed.

#[local] Hint Resolve appends_user_findUnique appends_user_create
  appends_user_update appends_customers_create : appends.

(** Every run of the provisioning routine starts with the lookup by subject
    id, so a call log that did not grow means the routine was not entered. *)
Lemma getData_issues_a_call {stripe : Stripe.Client} (email clerkId : string)
    (firstName lastName profileImage : option string) (w : World) :
  exists more,
    calls (snd (Dashboard.getData email clerkId firstName lastName
                  profileImage w))
    = calls w ++ UserFindUnique (ByClerkId clerkId) :: more.
Proof.
  unfold Dashboard.getData.
  rewrite (run_bind _ _ _ _ _ (run_user_findUnique _ w)).
  match goal with
  | |- context [bind ?m ?k ?w1] =>
      assert (Rest : appends (bind m k))
  end.
  { apply appends_bind.
    - destruct (find _ _); unfold console_log; appends_bind.
    - intros user. unfold console_log. apply appends_if; appends_bind. }
  destruct (Rest (mkWorld (db w)
                    (calls w ++ [UserFindUnique (ByClerkId clerkId)])))
    as [more E].
  exists more. rewrite E. cbn [calls]. rewrite <- app_assoc. reflexivity.
Qed.

(** ** The integrity constraints are kept *)

Lemma NoDup_snoc {A : Type} (l : list A) (x : A) :
  NoDup l -> ~ In x l -> NoDup (l ++ [x]).
Proof.
  induction l as [|y l IH]; simpl; intros N I.
  - constructor; [intros []|constructor].
  - inversion N as [|? ? Y N']; subst. constructor.
    + rewrite in_app_iff. simpl. intuition congruence.
    + apply IH; [exact N'|]. intuition.
Qed.

Lemma update_row_clerk_ids (c cid : string) (us : list User) :
  map clerk_id (Prisma.update_row c (Prisma.set_customer cid) us)
  = map clerk_id us.
Proof.
  induction us as [|u us IH]; simpl; [reflexivity|].
  destruct (Prisma.has_clerk_id c u); simpl; congruence.
Qed.

Lemma update_row_user_ids (c cid : string) (us : list User) :
  map user_id (Prisma.update_row c (Prisma.set_customer cid) us)
  = map user_id us.
Proof.
  induction us as [|u us IH]; simpl; [reflexivity|].
  destruct (Prisma.has_clerk_id c u); simpl; congruence.
Qed.

Lemma user_id_in_map (us vs : list User) (u : User) :
  map user_id vs = map user_id us -> In u us ->
  exists v, In v vs /\ user_id v = user_id u.
Proof.
  intros E I. apply (in_map user_id) in I. rewrite <- E in I.
  apply in_map_iff in I. destruct I as [v [Ev Iv]]. exists v. auto.
Qed.

Section Constraints.

Context {stripe : Stripe.Client}.

Lemma preserves_ret {A : Type} (I : Db -> Prop) (a : A) : preserves I (ret a).
Proof. intros w H. exact H. Qed.

Lemma preserves_throw {A : Type} (I : Db -> Prop) (e : Exn) :
  preserves I (@throw A e).
Proof. intros w H. exact H. Qed.

Lemma preserves_lift {A : Type} (I : Db -> Prop) (o : Outcome A) :
  preserves I (lift o).
Proof. intros w H. exact H. Qed.

Lemma preserves_get_db (I : Db -> Prop) : preserves I get_db.
Proof. intros w H. exact H. Qed.

Lemma preserves_record (I : Db -> Prop) (c : Call) : preserves I (record c).
Proof. intros w H. exact H. Qed.

Lemma preserves_bind {A B : Type} (I : Db -> Prop) (m : M A) (k : A -> M B) :
  preserves I m -> (forall a, preserves I (k a)) -> preserves I (bind m k).
Proof.
  intros Hm Hk w H. unfold bind. specialize (Hm w H).
  destruct (m w) as [[a|e] w1]; simpl in Hm.
  - apply Hk. exact Hm.
  - exact Hm.
Qed.

Lemma preserves_if {A : Type} (I : Db -> Prop) (b : bool) (m1 m2 : M A) :
  preserves I m1 -> preserves I m2 -> preserves I (if b then m1 else m2).
Proof. destruct b; trivial. Qed.

Lemma preserves_user_findUnique (I : Db -> Prop) (wh : UserWhere) :
  preserves I (Prisma.user_findUnique wh).
Proof. intros w H. exact H. Qed.

Lemma preserves_payment_findFirst (I : Db -> Prop) (c : string) :
  preserves I (Prisma.payment_findFirst c).
Proof. intros w H. exact H. Qed.

Lemma preserves_customers_create (I : Db -> Prop) (e : string) :
  preserves I (Stripe.customers_create e).
Proof.
  intros w H. rewrite run_customers_create. exact H.
Qed.

Lemma consistent_user_create (c e n : string) :
  preserves consistent (Prisma.user_create c e n).
Proof.
  intros w [Hc Hu Ha Hp].
  unfold Prisma.user_create, bind, record, get_db. cbn [db].
  destruct (existsb (Prisma.has_clerk_id c) (users (db w))) eqn:X;
    [constructor; assumption|].
  cbn. constructor; cbn [users payments next_user_id next_payment_id].
  - rewrite map_app. apply NoDup_snoc; [exact Hc|].
    intros I. apply in_map_iff in I. destruct I as [u [Eu Iu]].
    assert (Y : existsb (Prisma.has_clerk_id c) (users (db w)) = true).
    { apply existsb_exists. exists u. split; [exact Iu|].
      apply String.eqb_eq. exact Eu. }
    congruence.
  - rewrite map_app. apply NoDup_snoc; [exact Hu|].
    intros I. apply in_map_iff in I. destruct I as [u [Eu Iu]].
    specialize (Ha u Iu). simpl in Eu. lia.
  - intros u I. apply in_app_iff in I. destruct I as [I|[I|[]]].
    + specialize (Ha u I). lia.
    + subst u. simpl. lia.
  - intros p I. destruct (Hp p I) as [u [Iu Eu]].
    exists u. split; [apply in_or_app; left; exact Iu|exact Eu].
Qed.

Lemma consistent_user_update (c cid : string) :
  preserves consistent (Prisma.user_update c cid).
Proof.
  intros w [Hc Hu Ha Hp].
  unfold Prisma.user_update, bind, record, get_db. cbn [db].
  destruct (negb (existsb (Prisma.has_clerk_id c) (users (db w))));
    [constructor; assumption|].
  destruct (existsb _ (users (db w))); [constructor; assumption|].
  cbn. constructor; cbn [users payments next_user_id next_payment_id].
  - rewrite update_row_clerk_ids. exact Hc.
  - rewrite update_row_user_ids. exact Hu.
  - intros u I.
    destruct (user_id_in_map _ (users (db w)) u
                (eq_sym (update_row_user_ids c cid (users (db w)))) I)
      as [v [Iv Ev]].
    rewrite <- Ev. apply Ha. exact Iv.
  - intros p I. destruct (Hp p I) as [u [Iu Eu]].
    destruct (user_id_in_map (users (db w)) _ u
                (update_row_user_ids c cid (users (db w))) Iu)
      as [v [Iv Ev]].
    exists v. split; [exact Iv|congruence].
Qed.

Lemma consistent_payment_create (pd : PaymentData) :
  preserves consistent (Prisma.payment_create pd).
Proof.
  intros w [Hc Hu Ha Hp].
  unfold Prisma.payment_create, bind, record, get_db. cbn [db].
  destruct (d_stripe_payment_id pd) as [payment_ref|];
    [|constructor; assumption].
  destruct (d_currency pd) as [cur|]; [|constructor; assumption].
  cbn [db].
  destruct (existsb _ (users (db w))) eqn:X; cbn [negb];
    [|constructor; assumption].
  cbn. constructor; cbn [users payments next_user_id next_payment_id];
    try assumption.
  intros p I. apply in_app_iff in I. destruct I as [I|[I|[]]].
  - apply Hp. exact I.
  - subst p. cbn [pay_user_id]. apply existsb_exists in X.
    destruct X as [u [Iu Eu]]. exists u. split; [exact Iu|].
    apply Nat.eqb_eq. exact Eu.
Qed.

(** Provisioning keeps the constraints, also when it throws half-way. *)
Lemma consistent_getData (email clerkId : string)
    (firstName lastName profileImage : option string) :
  preserves consistent
    (Dashboard.getData email clerkId firstName lastName profileImage).
Proof.
  unfold Dashboard.getData, console_log.
  apply preserves_bind; [apply preserves_user_findUnique|intros user].
  apply preserves_bind.
  - destruct user.
    + apply preserves_ret.
    + apply preserves_bind; [apply consistent_user_create|intros _].
      apply preserves_user_findUnique.
  - intros user'. apply preserves_if; [|apply preserves_ret].
    apply preserves_bind; [apply preserves_record|intros _].
    apply preserves_bind; [apply preserves_customers_create|intros data].
    apply preserves_bind; [apply consistent_user_update|intros _].
    apply preserves_bind; [apply preserves_user_findUnique|intros _].
    apply preserves_ret.
Qed.

(** So does the webhook, whatever is delivered. *)
Lemma consistent_POST (secret : option string) (req : Webhook.Request) :
  preserves consistent (Webhook.POST secret req).
Proof.
  unfold Webhook.POST.
  destruct (Stripe.webhooks_constructEvent _ _ _) as [event|e];
    [|apply preserves_ret].
  apply preserves_bind; [|intros _].
  - repeat apply preserves_if; try apply preserves_ret.
    apply preserves_bind; [apply preserves_user_findUnique|intros user].
    destruct user; [apply consistent_payment_create|apply preserves_throw].
  - apply preserves_bind; [|intros _; apply preserves_ret].
    apply preserves_if; apply preserves_ret.
Qed.

End Constraints.

(** ** Lazy customer provisioning *)

Section Provisioning.

Context {stripe : Stripe.Client}.

Variables (email clerkId : string).
Variables (firstName lastName profileImage : option string).

Lemma other_holder_none (cid : string) (us : list User) :
  existsb (Prisma.has_customer_id cid) us = false ->
  existsb (fun u => negb (Prisma.has_clerk_id clerkId u)
                    && Prisma.has_customer_id cid u) us = false.
Proof.
  induction us as [|u us IH]; simpl; intros E; [reflexivity|].
  apply orb_false_iff in E. destruct E as [E1 E2].
  rewrite E1, andb_false_r. simpl. apply IH. exact E2.
Qed.

Lemma getData_run_first_visit (w : World) (cust : Stripe.Customer) :
  find (Prisma.has_clerk_id clerkId) (users (db w)) = None ->
  Stripe.customers_create_response email = Returned cust ->
  existsb (Prisma.has_customer_id (Stripe.id cust)) (users (db w)) = false ->
  Dashboard.getData email clerkId firstName lastName profileImage w =
  (Returned tt,
   mkWorld
     (mkDb (users (db w) ++
              [mkUser (next_user_id (db w)) clerkId email
                 (display_name firstName lastName)
                 (Some (Stripe.id cust))])
           (payments (db w)) (S (next_user_id (db w)))
           (next_payment_id (db w)))
     (calls w ++
        first_visit_calls email clerkId firstName lastName (Stripe.id cust))).
Proof.
  intros Absent Created Fresh.
  set (row := mkUser (next_user_id (db w)) clerkId email
                (display_name firstName lastName) None).
  assert (Key : Prisma.has_clerk_id clerkId row = true)
    by apply has_clerk_id_refl.
  unfold Dashboard.getData.
  rewrite (run_bind _ _ _ _ _ (run_user_findUnique _ w)). cbn [Prisma.matches].
  rewrite Absent.
  erewrite run_bind.
  2:{ erewrite run_bind by (apply run_user_create; exact Absent).
      apply run_user_findUnique. }
  cbn [db users calls Prisma.matches].
  fold (display_name firstName lastName). fold row.
  rewrite (find_snoc_fresh _ _ row Absent Key).
  cbn [stripe_customer_id row Js.truthy negb].
  unfold console_log.
  erewrite run_bind by reflexivity.
  erewrite run_bind by (rewrite run_customers_create, Created; reflexivity).
  erewrite run_bind.
  2:{ apply run_user_update; cbn [db users].
      - rewrite existsb_snoc, Key. apply orb_true_r.
      - rewrite existsb_snoc, Key. simpl.
        rewrite orb_false_r. apply other_holder_none. exact Fresh. }
  erewrite run_bind by apply run_user_findUnique.
  unfold ret. cbn [db users calls payments next_user_id next_payment_id].
  rewrite (update_row_snoc_fresh _ _ _ row Absent Key).
  unfold first_visit_calls. rewrite <- !app_assoc. reflexivity.
Qed.

Lemma getData_run_provisioned (w : World) :
  Js.truthy (customer_of clerkId (users (db w))) = true ->
  Dashboard.getData email clerkId firstName lastName profileImage w =
  (Returned tt,
   mkWorld (db w) (calls w ++ [UserFindUnique (ByClerkId clerkId)])).
Proof.
  unfold customer_of. intros Has.
  unfold Dashboard.getData.
  rewrite (run_bind _ _ _ _ _ (run_user_findUnique _ w)). cbn [Prisma.matches].
  destruct (find (Prisma.has_clerk_id clerkId) (users (db w))) as [u|];
    [|discriminate].
  unfold bind, ret. rewrite Has. reflexivity.
Qed.

(** The part of [getData] that runs when the fetched row has no usable
    billing-customer reference and the provider call throws. *)
Lemma provider_failure_tail (w : World) (e : Exn) (user : option User) :
  Stripe.customers_create_response email = Thrown e ->
  Js.truthy (match user with
             | Some u => stripe_customer_id u
             | None => None
             end) = false ->
  (if negb (Js.truthy (match user with
                       | Some u => stripe_customer_id u
                       | None => None
                       end)) then
     console_log "Creating stripe customer" ;;
     data <- Stripe.customers_create email ;;
     Prisma.user_update clerkId (Stripe.id data) ;;
     _ <- Prisma.user_findUnique (ByClerkId clerkId) ;;
     ret tt
   else ret tt) w =
  (Thrown e,
   mkWorld (db w)
     ((calls w ++ [ConsoleLog "Creating stripe customer"])
        ++ [StripeCustomersCreate email])).
Proof.
  intros Fails Lacks. rewrite Lacks. cbn [negb].
  unfold console_log.
  erewrite run_bind by reflexivity.
  erewrite run_bind_thrown
    by (rewrite run_customers_create, Fails; reflexivity).
  reflexivity.
Qed.

End Provisioning.

Section ProvisioningContract.

Context {stripe : Stripe.Client}.

Variables (email clerkId : string).
Variables (firstName lastName profileImage : option string).

(** C5.  A first visit: no User row carries the subject id, the provider
    creates the customer, and no row holds the new customer's id yet.
    [getData] then issues, in this order, the lookup, the creation of the
    row (email, name, no billing-customer reference), the re-fetch, the
    provider's customer creation keyed by the email, the update of the row
    under the subject id and the last re-fetch; it returns normally, and
    afterwards exactly one row carries the subject id: the new one, with
    the new customer's id. *)
Theorem getData_first_visit (w : World) (cust : Stripe.Customer) :
  find (Prisma.has_clerk_id clerkId) (users (db w)) = None ->
  Stripe.customers_create_response email = Returned cust ->
  existsb (Prisma.has_customer_id (Stripe.id cust)) (users (db w)) = false ->
  let row :=
    mkUser (next_user_id (db w)) clerkId email
      (display_name firstName lastName) (Some (Stripe.id cust)) in
  let w' :=
    mkWorld
      (mkDb (users (db w) ++ [row]) (payments (db w))
            (S (next_user_id (db w))) (next_payment_id (db w)))
      (calls w ++
         first_visit_calls email clerkId firstName lastName (Stripe.id cust)) in
  Dashboard.getData email clerkId firstName lastName profileImage w =
    (Returned tt, w')
  /\ filter (Prisma.has_clerk_id clerkId) (users (db w')) = [row]
  /\ customer_of clerkId (users (db w')) = Some (Stripe.id cust).
Proof.
  intros Absent Created Fresh row w'.
  assert (Key : Prisma.has_clerk_id clerkId row = true)
    by apply has_clerk_id_refl.
  split; [|split].
  - apply getData_run_first_visit; assumption.
  - apply filter_snoc_fresh; assumption.
  - unfold customer_of. cbn [w' db users].
    rewrite (find_snoc_fresh _ _ row Absent Key). reflexivity.
Qed.

(** C6.  When the row of the subject id already carries a non-empty
    billing-customer reference, [getData] issues the one lookup and
    nothing else: no write, no provider call, the store is left as it
    was. *)
Theorem getData_provisioned_noop (w : World) :
  Js.truthy (customer_of clerkId (users (db w))) = true ->
  exists issued : list Call,
    Dashboard.getData email clerkId firstName lastName profileImage w =
      (Returned tt, mkWorld (db w) (calls w ++ issued))
    /\ issued = [UserFindUnique (ByClerkId clerkId)]
    /\ existsb is_write issued = false
    /\ existsb is_provider_call issued = false.
Proof.
  intros Has. exists [UserFindUnique (ByClerkId clerkId)].
  split; [|repeat split].
  apply getData_run_provisioned. exact Has.
Qed.

(** C7.  When the row of the subject id has no usable billing-customer
    reference (or does not exist yet) and the provider's customer creation
    throws [e], [getData] throws the same [e]; no update of a User row is
    issued, the rows that existed are untouched, at most the new row
    without a reference was appended, and the row of the subject id is
    left without a reference. *)
Theorem getData_provider_failure (w : World) (e : Exn) :
  Stripe.customers_create_response email = Thrown e ->
  Js.truthy (customer_of clerkId (users (db w))) = false ->
  exists (w' : World) (issued : list Call),
    Dashboard.getData email clerkId firstName lastName profileImage w =
      (Thrown e, w')
    /\ calls w' = calls w ++ issued
    /\ (forall c cid, ~ In (UserUpdate c cid) issued)
    /\ In (StripeCustomersCreate email) issued
    /\ (users (db w') = users (db w)
        \/ exists row, users (db w') = users (db w) ++ [row]
                       /\ stripe_customer_id row = None)
    /\ payments (db w') = payments (db w)
    /\ exists u, find (Prisma.has_clerk_id clerkId) (users (db w')) = Some u
                 /\ Js.truthy (stripe_customer_id u) = false.
Proof.
  unfold customer_of. intros Fails Lacks.
  unfold Dashboard.getData.
  rewrite (run_bind _ _ _ _ _ (run_user_findUnique _ w)). cbn [Prisma.matches].
  destruct (find (Prisma.has_clerk_id clerkId) (users (db w))) as [u|] eqn:Look.
  - erewrite run_bind by reflexivity.
    rewrite (provider_failure_tail email clerkId _ e (Some u) Fails Lacks).
    eexists. exists [UserFindUnique (ByClerkId clerkId);
                     ConsoleLog "Creating stripe customer";
                     StripeCustomersCreate email].
    split; [reflexivity|]. cbn [db calls users payments].
    repeat split.
    + rewrite <- !app_assoc. reflexivity.
    + intros c cid [X|[X|[X|[]]]]; discriminate.
    + simpl. tauto.
    + left. reflexivity.
    + exists u. split; assumption.
  - set (row := mkUser (next_user_id (db w)) clerkId email
                  (display_name firstName lastName) None).
    assert (Key : Prisma.has_clerk_id clerkId row = true)
      by apply has_clerk_id_refl.
    erewrite run_bind.
    2:{ erewrite run_bind by (apply run_user_create; exact Look).
        apply run_user_findUnique. }
    cbn [db users calls Prisma.matches].
    fold (display_name firstName lastName). fold row.
    rewrite (find_snoc_fresh _ _ row Look Key).
    rewrite (provider_failure_tail email clerkId _ e (Some row) Fails eq_refl).
    eexists. exists [UserFindUnique (ByClerkId clerkId);
                     UserCreate clerkId email (display_name firstName lastName);
                     UserFindUnique (ByClerkId clerkId);
                     ConsoleLog "Creating stripe customer";
                     StripeCustomersCreate email].
    split; [reflexivity|]. cbn [db calls users payments].
    repeat split.
    + rewrite <- !app_assoc. reflexivity.
    + intros c cid [X|[X|[X|[X|[X|[]]]]]]; discriminate.
    + simpl. tauto.
    + right. exists row. split; reflexivity.
    + exists row. split; [|reflexivity].
      apply find_snoc_fresh; assumption.
Qed.

End ProvisioningContract.

(** ** Entry to the protected area *)

Section ProtectedArea.

Context {stripe : Stripe.Client}.
Context {Node : Type}.

(** A visit with a subject id, a user and an e-mail address runs the
    provisioning routine on them and then renders the shell. *)
Lemma DashboardLayout_authenticated (session : Clerk.Session)
    (children : Node) (userId email : string) (user : Clerk.ClerkUser) :
  Clerk.userId session = Some userId ->
  userId <> ""%string ->
  Clerk.currentUser session = Some user ->
  session_email session = Some email ->
  email <> ""%string ->
  Dashboard.DashboardLayout session children =
  (Dashboard.getData email userId (Clerk.firstName user)
     (Clerk.lastName user) (Some (Clerk.imageUrl user)) ;;
   ret (Dashboard.SidebarShell Node children)).
Proof.
  unfold session_email, Dashboard.DashboardLayout.
  intros Id IdT Usr Mail MailT. rewrite Id, Usr in *.
  rewrite Mail. simpl.
  apply String.eqb_neq in IdT, MailT. rewrite IdT, MailT. reflexivity.
Qed.

(** X24.  The layout has no handler around the provisioning routine: what
    the routine throws, the visit throws, with the writes made so far. *)
Lemma DashboardLayout_propagates (session : Clerk.Session)
    (children : Node) (userId email : string) (user : Clerk.ClerkUser)
    (w w' : World) (e : Exn) :
  Clerk.userId session = Some userId ->
  userId <> ""%string ->
  Clerk.currentUser session = Some user ->
  session_email session = Some email ->
  email <> ""%string ->
  Dashboard.getData email userId (Clerk.firstName user) (Clerk.lastName user)
    (Some (Clerk.imageUrl user)) w = (Thrown e, w') ->
  Dashboard.DashboardLayout session children w = (Thrown e, w').
Proof.
  intros Id IdT Usr Mail MailT Run.
  rewrite (DashboardLayout_authenticated session children userId email user
             Id IdT Usr Mail MailT).
  apply run_bind_thrown. exact Run.
Qed.

Lemma DashboardLayout_renders (session : Clerk.Session)
    (children : Node) (userId email : string) (user : Clerk.ClerkUser)
    (w w' : World) :
  Clerk.userId session = Some userId ->
  userId <> ""%string ->
  Clerk.currentUser session = Some user ->
  session_email session = Some email ->
  email <> ""%string ->
  Dashboard.getData email userId (Clerk.firstName user) (Clerk.lastName user)
    (Some (Clerk.imageUrl user)) w = (Returned tt, w') ->
  Dashboard.DashboardLayout session children w
  = (Returned (Dashboard.SidebarShell Node children), w').
Proof.
  intros Id IdT Usr Mail MailT Run.
  rewrite (DashboardLayout_authenticated session children userId email user
             Id IdT Usr Mail MailT).
  rewrite (run_bind _ _ _ _ _ Run). reflexivity.
Qed.

(** C9.  Without a subject id, without a user, or without an e-mail
    address in the identity assertion, the layout redirects to ["/"] and
    leaves the world as it was: the store is untouched and no call was
    issued, so the provisioning routine did not run. *)
Theorem DashboardLayout_redirects (session : Clerk.Session)
    (children : Node) (w : World) :
  Js.truthy (Clerk.userId session) = false
  \/ Clerk.currentUser session = None
  \/ Js.truthy (session_email session) = false ->
  Dashboard.DashboardLayout session children w = (Thrown (NextRedirect "/"), w).
Proof.
  unfold session_email, Dashboard.DashboardLayout, redirect, throw.
  intros [NoId | [NoUser | NoMail]].
  - rewrite NoId. reflexivity.
  - rewrite NoUser. destruct (Js.truthy (Clerk.userId session));
      destruct (Clerk.userId session); reflexivity.
  - destruct (Js.truthy (Clerk.userId session));
      destruct (Clerk.userId session);
      destruct (Clerk.currentUser session) as [user|]; try reflexivity.
    rewrite NoMail. reflexivity.
Qed.

End ProtectedArea.

(** ** Webhook ingestion *)

Section WebhookRuns.

Context {stripe : Stripe.Client}.

Variable secret : option string.

Lemma payment_checkout_inv (event : Stripe.Event) :
  is_payment_checkout event = true ->
  (Stripe.type event =? "checkout.session.completed")%string = true
  /\ (Stripe.mode (Stripe.data_object event) =? "subscription")%string = false
  /\ (Stripe.mode (Stripe.data_object event) =? "payment")%string = true.
Proof.
  unfold is_payment_checkout. intros H.
  apply andb_true_iff in H. destruct H as [H Hp].
  apply andb_true_iff in H. destruct H as [Ht Hs].
  apply negb_true_iff in Hs. auto.
Qed.

Lemma owner_exists (f : User -> bool) (us : list User) (user : User) :
  find f us = Some user ->
  existsb (fun u => user_id u =? user_id user)%nat us = true.
Proof.
  intros E. apply find_some in E. destruct E as [I _].
  apply existsb_exists. exists user. split; [exact I|].
  apply Nat.eqb_refl.
Qed.

Lemma POST_run_rejected (req : Webhook.Request) (w : World) (e : Exn) :
  Stripe.webhooks_constructEvent (Webhook.text req)
    (Webhook.stripe_signature req) secret = Thrown e ->
  Webhook.POST secret req w =
  (Returned (Webhook.mkResponse (Some "Webhook error") 400), w).
Proof. intros E. unfold Webhook.POST. rewrite E. reflexivity. Qed.

Lemma POST_run_noop (req : Webhook.Request) (w : World)
    (event : Stripe.Event) :
  Stripe.webhooks_constructEvent (Webhook.text req)
    (Webhook.stripe_signature req) secret = Returned event ->
  is_payment_checkout event = false ->
  Webhook.POST secret req w = (Returned (Webhook.mkResponse None 200), w).
Proof.
  intros E N. unfold Webhook.POST. rewrite E.
  unfold is_payment_checkout in N.
  destruct (Stripe.type event =? "checkout.session.completed")%string;
    destruct (Stripe.mode (Stripe.data_object event) =? "subscription")%string;
    destruct (Stripe.mode (Stripe.data_object event) =? "payment")%string;
    try discriminate N;
    destruct (Stripe.type event =? "invoice.payment_succeeded")%string;
    reflexivity.
Qed.

Lemma POST_run_unknown (req : Webhook.Request) (w : World)
    (event : Stripe.Event) :
  Stripe.webhooks_constructEvent (Webhook.text req)
    (Webhook.stripe_signature req) secret = Returned event ->
  is_payment_checkout event = true ->
  find (Prisma.matches (customer_where (Stripe.data_object event)))
       (users (db w)) = None ->
  Webhook.POST secret req w =
  (Thrown (JsError "User not found"),
   mkWorld (db w)
     (calls w ++ [UserFindUnique (customer_where (Stripe.data_object event))])).
Proof.
  intros E P N. unfold Webhook.POST. rewrite E.
  destruct (payment_checkout_inv _ P) as [Ht [Hs Hp]].
  rewrite Ht, Hs, Hp.
  erewrite run_bind_thrown; [reflexivity|].
  erewrite run_bind by apply run_user_findUnique.
  fold (customer_where (Stripe.data_object event)). cbn [db].
  rewrite N. reflexivity.
Qed.

Lemma POST_run_payment (req : Webhook.Request) (w : World)
    (event : Stripe.Event) (user : User) :
  Stripe.webhooks_constructEvent (Webhook.text req)
    (Webhook.stripe_signature req) secret = Returned event ->
  is_payment_checkout event = true ->
  find (Prisma.matches (customer_where (Stripe.data_object event)))
       (users (db w)) = Some user ->
  forall row,
  row_of (db w) (payment_data (Stripe.data_object event) user) = Some row ->
  let pd := payment_data (Stripe.data_object event) user in
  Webhook.POST secret req w =
  (Returned (Webhook.mkResponse None 200),
   mkWorld
     (mkDb (users (db w)) (payments (db w) ++ [row])
           (next_user_id (db w)) (S (next_payment_id (db w))))
     (calls w ++ [UserFindUnique (customer_where (Stripe.data_object event));
                  PaymentCreate pd])).
Proof.
  intros E P F row R pd. unfold Webhook.POST. rewrite E.
  destruct (payment_checkout_inv _ P) as [Ht [Hs Hp]].
  rewrite Ht, Hs, Hp.
  erewrite run_bind.
  2:{ erewrite run_bind by apply run_user_findUnique.
      fold (customer_where (Stripe.data_object event)). cbn [db].
      rewrite F. fold (payment_data (Stripe.data_object event) user). fold pd.
      apply run_payment_create; cbn [db users].
      - exact R.
      - apply (owner_exists _ _ _ F). }
  destruct (Stripe.type event =? "invoice.payment_succeeded")%string;
    unfold bind, ret;
    cbn [db calls users payments next_user_id next_payment_id];
    rewrite <- app_assoc; reflexivity.
Qed.

Lemma row_of_complete (d : Db) (session : Stripe.Session) (user : User)
    (payment_ref cur : string) :
  Stripe.payment_intent session = Some payment_ref ->
  Stripe.currency session = Some cur ->
  row_of d (payment_data session user) =
  Some (mkPayment (next_payment_id d) (user_id user) payment_ref
          (inject_Z (Js.nullish (Stripe.amount_total session) 0%Z)
             / inject_Z 100)%Q
          cur (Stripe.payment_status session)).
Proof.
  intros I C. unfold row_of, payment_data.
  cbn [d_stripe_payment_id d_currency d_user_id d_amount d_status].
  rewrite I, C. reflexivity.
Qed.

Lemma row_of_incomplete (d : Db) (session : Stripe.Session) (user : User) :
  Stripe.payment_intent session = None \/ Stripe.currency session = None ->
  row_of d (payment_data session user) = None.
Proof.
  unfold row_of, payment_data. cbn [d_stripe_payment_id d_currency].
  intros [E|E]; rewrite E; [reflexivity|].
  destruct (Stripe.payment_intent session); reflexivity.
Qed.

(** The session lacks a payment reference or a currency: the client rejects
    the insertion and the handler lets the exception through. *)
Lemma POST_run_invalid (req : Webhook.Request) (w : World)
    (event : Stripe.Event) (user : User) :
  Stripe.webhooks_constructEvent (Webhook.text req)
    (Webhook.stripe_signature req) secret = Returned event ->
  is_payment_checkout event = true ->
  find (Prisma.matches (customer_where (Stripe.data_object event)))
       (users (db w)) = Some user ->
  row_of (db w) (payment_data (Stripe.data_object event) user) = None ->
  Webhook.POST secret req w =
  (Thrown (PrismaError "PrismaClientValidationError"),
   mkWorld (db w)
     (calls w ++ [UserFindUnique (customer_where (Stripe.data_object event));
                  PaymentCreate
                    (payment_data (Stripe.data_object event) user)])).
Proof.
  intros E P F R. unfold Webhook.POST. rewrite E.
  destruct (payment_checkout_inv _ P) as [Ht [Hs Hp]].
  rewrite Ht, Hs, Hp.
  erewrite run_bind_thrown; [reflexivity|].
  erewrite run_bind by apply run_user_findUnique.
  fold (customer_where (Stripe.data_object event)). cbn [db].
  rewrite F. fold (payment_data (Stripe.data_object event) user).
  rewrite run_payment_create_rejected by (cbn [db]; exact R).
  cbn [db calls]. rewrite <- app_assoc. reflexivity.
Qed.

End WebhookRuns.

Lemma minor_units_quotient (a : Z) : (inject_Z a / inject_Z 100 == a # 100)%Q.
Proof. unfold Qeq, Qdiv, Qmult, Qinv, inject_Z. simpl. lia. Qed.

Section WebhookContract.

Context {stripe : Stripe.Client}.

Variable secret : option string.
Variable req : Webhook.Request.
Variable w : World.

(** C2.  A verified [checkout.session.completed] event in [payment] mode
    whose session carries a payment reference and a currency and whose
    customer reference is the [stripe_customer_id] of a User row: the
    handler answers 200 and the store differs from the one before by
    exactly one Payment row, appended, whose [stripe_payment_id] is the
    session's payment reference, whose [user_id] is the resolved user's,
    whose amount is [amount_total / 100] (for an [amount_total] of
    magnitude below [10^15], where the quotient the handler computes in
    doubles reaches the column exactly), whose currency is the session's
    and whose status is the session's payment status. *)
Theorem POST_payment_inserts_one_row (event : Stripe.Event) (user : User)
    (payment_ref cur : string) :
  verified secret req event ->
  Stripe.type event = "checkout.session.completed"%string ->
  Stripe.mode (Stripe.data_object event) = "payment"%string ->
  Stripe.payment_intent (Stripe.data_object event) = Some payment_ref ->
  Stripe.currency (Stripe.data_object event) = Some cur ->
  find (Prisma.has_customer_id
          (Js.String_ (Stripe.customer (Stripe.data_object event))))
       (users (db w)) = Some user ->
  let session := Stripe.data_object event in
  exists (row : Payment) (issued : list Call),
    Webhook.POST secret req w =
      (Returned (Webhook.mkResponse None 200),
       mkWorld (mkDb (users (db w)) (payments (db w) ++ [row])
                     (next_user_id (db w)) (S (next_payment_id (db w))))
               (calls w ++ issued))
    /\ length (filter is_write issued) = 1%nat
    /\ stripe_payment_id row = payment_ref
    /\ pay_user_id row = user_id user
    /\ (forall a, Stripe.amount_total session = Some a ->
                  (Z.abs a < 10 ^ 15)%Z ->
                  (amount row == a # 100)%Q)
    /\ currency row = cur
    /\ status row = Stripe.payment_status session.
Proof.
  intros V T Md I C F session.
  assert (P : is_payment_checkout event = true).
  { unfold is_payment_checkout. rewrite T, Md. reflexivity. }
  eexists. eexists. split.
  - apply (POST_run_payment secret req w event user V P F).
    apply row_of_complete; eassumption.
  - cbn. repeat split.
    intros a A _. fold session. rewrite A. apply minor_units_quotient.
Qed.

(** C3.  When the reconstruction of the event throws, whatever the body,
    the signature header and the secret, the handler answers 400 and the
    world is the one it started from: no row was created, no call was
    issued. *)
Theorem POST_rejects_bad_signature (e : Exn) :
  Stripe.webhooks_constructEvent (Webhook.text req)
    (Webhook.stripe_signature req) secret = Thrown e ->
  exists resp,
    Webhook.POST secret req w = (Returned resp, w)
    /\ Webhook.status_code resp = 400%Z.
Proof.
  intros E. eexists. split.
  - apply (POST_run_rejected secret req w e E).
  - reflexivity.
Qed.

(** C4.  A verified [checkout.session.completed] event in [payment] mode
    whose customer reference is the [stripe_customer_id] of no User row:
    the handler throws and the store is unchanged; the only call issued
    is the lookup. *)
Theorem POST_unknown_customer_throws (event : Stripe.Event) :
  verified secret req event ->
  Stripe.type event = "checkout.session.completed"%string ->
  Stripe.mode (Stripe.data_object event) = "payment"%string ->
  find (Prisma.has_customer_id
          (Js.String_ (Stripe.customer (Stripe.data_object event))))
       (users (db w)) = None ->
  exists (e : Exn) (issued : list Call),
    Webhook.POST secret req w = (Thrown e, mkWorld (db w) (calls w ++ issued))
    /\ e = JsError "User not found"
    /\ existsb is_write issued = false.
Proof.
  intros V T Md F.
  assert (P : is_payment_checkout event = true).
  { unfold is_payment_checkout. rewrite T, Md. reflexivity. }
  eexists. eexists. split.
  - apply (POST_run_unknown secret req w event V P F).
  - split; reflexivity.
Qed.

(** C8.  A verified event that is a [checkout.session.completed] in
    [subscription] mode, an [invoice.payment_succeeded], or of any other
    kind, leaves the world as it was and is answered with 200.  And
    whatever is delivered, the handler leaves the User rows alone and the
    Payment rows are afterwards the ones before, or the ones before and
    one more; the calls it issued contain at most one write, an insertion
    of a Payment row, and no call to the provider. *)
Theorem POST_side_effects :
  (forall event,
      verified secret req event ->
      (Stripe.type event = "checkout.session.completed"%string
       /\ Stripe.mode (Stripe.data_object event) = "subscription"%string)
      \/ Stripe.type event = "invoice.payment_succeeded"%string
      \/ Stripe.type event <> "checkout.session.completed"%string ->
      Webhook.POST secret req w = (Returned (Webhook.mkResponse None 200), w))
  /\ (let w' := snd (Webhook.POST secret req w) in
      users (db w') = users (db w)
      /\ next_user_id (db w') = next_user_id (db w)
      /\ (payments (db w') = payments (db w)
          \/ exists row, payments (db w') = payments (db w) ++ [row])
      /\ exists issued,
           calls w' = calls w ++ issued
           /\ (length (filter is_write issued) <= 1)%nat
           /\ (forall c, In c issued -> is_write c = true ->
                         exists pd, c = PaymentCreate pd)
           /\ existsb is_provider_call issued = false).
Proof.
  split.
  - intros event V Kind. apply (POST_run_noop secret req w event V).
    unfold is_payment_checkout.
    destruct Kind as [[T Md] | [T | T]].
    + rewrite T, Md. reflexivity.
    + rewrite T. reflexivity.
    + apply String.eqb_neq in T. rewrite T. reflexivity.
  - destruct (Stripe.webhooks_constructEvent (Webhook.text req)
                (Webhook.stripe_signature req) secret) as [event|e] eqn:V.
    + destruct (is_payment_checkout event) eqn:P.
      * destruct (find (Prisma.matches
                          (customer_where (Stripe.data_object event)))
                       (users (db w))) as [user|] eqn:F.
        -- destruct (row_of (db w)
                       (payment_data (Stripe.data_object event) user))
             as [row|] eqn:R.
           ++ rewrite (POST_run_payment secret req w event user V P F row R).
              cbn. repeat split; auto.
              ** right. eexists. reflexivity.
              ** eexists. repeat split.
                 --- cbn. lia.
                 --- intros c [X|[X|[]]] Wr; subst c; [discriminate|].
                     eexists. reflexivity.
           ++ rewrite (POST_run_invalid secret req w event user V P F R).
              cbn. repeat split; auto.
              eexists. repeat split.
              ** cbn. lia.
              ** intros c [X|[X|[]]] Wr; subst c; [discriminate|].
                 eexists. reflexivity.
        -- rewrite (POST_run_unknown secret req w event V P F).
           cbn. repeat split; auto.
           eexists. repeat split.
           ++ cbn. lia.
           ++ intros c [X|[]] Wr; subst c; discriminate.
      * rewrite (POST_run_noop secret req w event V P).
        cbn. repeat split; auto.
        exists []. rewrite app_nil_r. repeat split.
        -- cbn. lia.
        -- intros c [].
    + rewrite (POST_run_rejected secret req w e V).
      cbn. repeat split; auto.
      exists []. rewrite app_nil_r. repeat split.
      * cbn. lia.
      * intros c [].
Qed.

(** C10.  A verified [checkout.session.completed] event in [payment] mode
    with a known customer reference, whose session carries a payment
    reference and a currency but no [amount_total]: the handler still
    answers 200 and appends one Payment row, whose amount is 0. *)
Theorem POST_missing_amount_is_zero (event : Stripe.Event) (user : User)
    (payment_ref cur : string) :
  verified secret req event ->
  Stripe.type event = "checkout.session.completed"%string ->
  Stripe.mode (Stripe.data_object event) = "payment"%string ->
  Stripe.payment_intent (Stripe.data_object event) = Some payment_ref ->
  Stripe.currency (Stripe.data_object event) = Some cur ->
  find (Prisma.has_customer_id
          (Js.String_ (Stripe.customer (Stripe.data_object event))))
       (users (db w)) = Some user ->
  Stripe.amount_total (Stripe.data_object event) = None ->
  exists (row : Payment) (issued : list Call),
    Webhook.POST secret req w =
      (Returned (Webhook.mkResponse None 200),
       mkWorld (mkDb (users (db w)) (payments (db w) ++ [row])
                     (next_user_id (db w)) (S (next_payment_id (db w))))
               (calls w ++ issued))
    /\ (amount row == 0)%Q
    /\ pay_user_id row = user_id user
    /\ stripe_payment_id row = payment_ref
    /\ currency row = cur.
Proof.
  intros V T Md I C F A.
  assert (P : is_payment_checkout event = true).
  { unfold is_payment_checkout. rewrite T, Md. reflexivity. }
  eexists. eexists. split.
  - apply (POST_run_payment secret req w event user V P F).
    apply row_of_complete; eassumption.
  - cbn. rewrite A. repeat split.
Qed.

End WebhookContract.

(** ** Entitlement on the billing page *)

Section Entitlement.

Variable clerkId : string.

Lemma BillingPage_run (session : Clerk.Session) (w : World) :
  Clerk.userId session = Some clerkId ->
  clerkId <> ""%string ->
  Billing.BillingPage session w =
  (Returned (if Js.strict_eq (first_row_status clerkId (db w)) "paid"
             then Billing.ManageSubscription
             else Billing.OfferPurchase),
   mkWorld (db w) (calls w ++ [PaymentFindFirst clerkId])).
Proof.
  intros Id T. apply String.eqb_neq in T.
  unfold Billing.BillingPage. rewrite Id. cbn [Js.truthy]. rewrite T.
  cbn [negb].
  unfold Billing.getData, Prisma.payment_findFirst, first_row_status.
  unfold bind, record, get_db, ret. cbn [db].
  destruct (find (Prisma.owned_by (users (db w)) clerkId) (payments (db w)));
    reflexivity.
Qed.

(** What the page does: the first row the store returns for the user
    decides between the two branches. *)
Lemma BillingPage_first_row (session : Clerk.Session) (w : World) :
  Clerk.userId session = Some clerkId ->
  clerkId <> ""%string ->
  fst (Billing.BillingPage session w) = Returned Billing.ManageSubscription
  <-> first_row_status clerkId (db w) = Some "paid"%string.
Proof.
  intros Id T. rewrite (BillingPage_run session w Id T). cbn [fst].
  destruct (first_row_status clerkId (db w)) as [s|]; cbn [Js.strict_eq].
  - destruct (String.eqb_spec s "paid").
    + subst s. split; reflexivity.
    + split; [discriminate|]. intros E. congruence.
  - split; discriminate.
Qed.

(** X25.  One half of the entitlement invariant holds on every store: the
    "manage subscription" branch is rendered only if a paid row exists. *)
Lemma BillingPage_manage_needs_paid_row (session : Clerk.Session)
    (w : World) :
  Clerk.userId session = Some clerkId ->
  clerkId <> ""%string ->
  fst (Billing.BillingPage session w) = Returned Billing.ManageSubscription ->
  has_paid_row clerkId (db w) = true.
Proof.
  intros Id T E. apply (BillingPage_first_row session w Id T) in E.
  unfold first_row_status in E. unfold has_paid_row.
  destruct (find (Prisma.owned_by (users (db w)) clerkId) (payments (db w)))
    as [p|] eqn:F; [|discriminate].
  apply find_some in F. destruct F as [I O].
  apply existsb_exists. exists p. split; [exact I|].
  rewrite O. simpl in E. injection E as E. rewrite E. reflexivity.
Qed.

Lemma filter_at_most_one {A : Type} (f : A -> bool) (l : list A) (x y : A) :
  (length (filter f l) <= 1)%nat ->
  find f l = Some x -> In y l -> f y = true -> y = x.
Proof.
  induction l as [|z l IH]; simpl; intros L F I T; [contradiction|].
  destruct (f z) eqn:Z.
  - injection F as F. subst z. destruct I as [I|I]; [symmetry; exact I|].
    simpl in L. assert (In y (filter f l)) as J
      by (apply filter_In; split; assumption).
    destruct (filter f l); [contradiction|]. simpl in L. lia.
  - destruct I as [I|I]; [subst z; congruence|].
    apply IH; assumption.
Qed.

(** X26.  The invariant as the specification words it holds for a user
    that owns at most one Payment row. *)
Lemma BillingPage_single_row (session : Clerk.Session) (w : World) :
  Clerk.userId session = Some clerkId ->
  clerkId <> ""%string ->
  at_most_one_row clerkId (db w) ->
  fst (Billing.BillingPage session w) = Returned Billing.ManageSubscription
  <-> has_paid_row clerkId (db w) = true.
Proof.
  intros Id T One. split.
  - apply BillingPage_manage_needs_paid_row; assumption.
  - intros E. apply (BillingPage_first_row session w Id T).
    unfold has_paid_row in E. apply existsb_exists in E.
    destruct E as [p [I E]]. apply andb_true_iff in E. destruct E as [O S].
    unfold first_row_status.
    destruct (find (Prisma.owned_by (users (db w)) clerkId) (payments (db w)))
      as [q|] eqn:F.
    + rewrite <- (filter_at_most_one _ _ q p One F I O).
      apply String.eqb_eq in S. simpl. rewrite S. reflexivity.
    + apply find_none_existsb in F.
      assert (X : existsb (Prisma.owned_by (users (db w)) clerkId)
                    (payments (db w)) = true)
        by (apply existsb_exists; exists p; split; assumption).
      congruence.
Qed.

End Entitlement.

(** ** The provisioning routine as a function of the store *)

Lemma find_update_row (c cid : string) (us : list User) (u : User) :
  find (Prisma.has_clerk_id c) us = Some u ->
  find (Prisma.has_clerk_id c)
       (Prisma.update_row c (Prisma.set_customer cid) us)
  = Some (Prisma.set_customer cid u).
Proof.
  induction us as [|v us IH]; simpl; intros F; [discriminate|].
  destruct (Prisma.has_clerk_id c v) eqn:K; simpl.
  - injection F as F. subst v.
    unfold Prisma.has_clerk_id in *. simpl. rewrite K. reflexivity.
  - rewrite K. apply IH. exact F.
Qed.

Lemma others_update_row (c cid : string) (us : list User) :
  others c (Prisma.update_row c (Prisma.set_customer cid) us) = others c us.
Proof.
  unfold others. induction us as [|v us IH]; simpl; [reflexivity|].
  destruct (Prisma.has_clerk_id c v) eqn:K; simpl.
  - unfold Prisma.has_clerk_id in *. simpl. rewrite K. reflexivity.
  - rewrite K. simpl. rewrite IH. reflexivity.
Qed.

Lemma length_update_row (c : string) (f : User -> User) (us : list User) :
  length (Prisma.update_row c f us) = length us.
Proof.
  induction us as [|v us IH]; simpl; [reflexivity|].
  destruct (Prisma.has_clerk_id c v); simpl; congruence.
Qed.

Lemma run_user_update_conflict (c cid : string) (w : World) :
  existsb (Prisma.has_clerk_id c) (users (db w)) = true ->
  existsb (fun u => negb (Prisma.has_clerk_id c u)
                    && Prisma.has_customer_id cid u) (users (db w)) = true ->
  Prisma.user_update c cid w =
  (Thrown (PrismaError "P2002"),
   mkWorld (db w) (calls w ++ [UserUpdate c cid])).
Proof.
  intros E U.
  unfold Prisma.user_update, bind, record, get_db. simpl.
  rewrite E, U. reflexivity.
Qed.

Section ProvisioningFunction.

Context {stripe : Stripe.Client}.

Variables (email clerkId : string).
Variables (firstName lastName profileImage : option string).

(** Once the row of the subject id is in the store, the rest of the routine
    depends on the store only through [provision]. *)
Lemma getData_tail_store (w : World) (u : User) :
  find (Prisma.has_clerk_id clerkId) (users (db w)) = Some u ->
  let r :=
    (if negb (Js.truthy (stripe_customer_id u)) then
       console_log "Creating stripe customer" ;;
       data <- Stripe.customers_create email ;;
       Prisma.user_update clerkId (Stripe.id data) ;;
       _ <- Prisma.user_findUnique (ByClerkId clerkId) ;;
       ret tt
     else ret tt) w in
  (fst r, db (snd r)) =
  provision email clerkId firstName lastName (db w).
Proof.
  intros Look. cbv zeta.
  assert (Here : existsb (Prisma.has_clerk_id clerkId) (users (db w)) = true).
  { destruct (existsb (Prisma.has_clerk_id clerkId) (users (db w))) eqn:X;
      [reflexivity|].
    apply find_none_existsb in X. congruence. }
  unfold provision, with_row, customer_of.
  rewrite Look. cbv beta iota zeta. rewrite Look.
  destruct (Js.truthy (stripe_customer_id u)); cbn [negb]; [reflexivity|].
  unfold console_log. erewrite run_bind by reflexivity.
  destruct (Stripe.customers_create_response email) as [cust|e] eqn:Resp.
  - erewrite run_bind by (rewrite run_customers_create, Resp; reflexivity).
    destruct (other_holder clerkId (Stripe.id cust) (users (db w))) eqn:Held;
      unfold other_holder in Held.
    + erewrite run_bind_thrown
        by (apply run_user_update_conflict; assumption).
      reflexivity.
    + erewrite run_bind by (apply run_user_update; assumption).
      erewrite run_bind by apply run_user_findUnique.
      reflexivity.
  - erewrite run_bind_thrown
      by (rewrite run_customers_create, Resp; reflexivity).
    reflexivity.
Qed.

Lemma with_row_idem (d : Db) :
  with_row email clerkId firstName lastName
    (with_row email clerkId firstName lastName d)
  = with_row email clerkId firstName lastName d.
Proof.
  unfold with_row.
  destruct (find (Prisma.has_clerk_id clerkId) (users d)) eqn:Look.
  - rewrite Look. reflexivity.
  - cbn [users]. rewrite (find_snoc_fresh _ _ _ Look);
      [reflexivity|apply has_clerk_id_refl].
Qed.

Lemma provision_with_row (d : Db) :
  provision email clerkId firstName lastName
    (with_row email clerkId firstName lastName d)
  = provision email clerkId firstName lastName d.
Proof. unfold provision. rewrite with_row_idem. reflexivity. Qed.

(** The result of the routine and the store it leaves are those of
    [provision]; the call log plays no part. *)
Lemma getData_store (w : World) :
  let r := Dashboard.getData email clerkId firstName lastName profileImage w in
  (fst r, db (snd r)) = provision email clerkId firstName lastName (db w).
Proof.
  cbv zeta. unfold Dashboard.getData.
  rewrite (run_bind _ _ _ _ _ (run_user_findUnique _ w)). cbn [Prisma.matches].
  destruct (find (Prisma.has_clerk_id clerkId) (users (db w))) as [u|] eqn:Look.
  - erewrite run_bind by reflexivity.
    rewrite (getData_tail_store _ u); [reflexivity|exact Look].
  - set (row := mkUser (next_user_id (db w)) clerkId email
                  (display_name firstName lastName) None).
    assert (Key : Prisma.has_clerk_id clerkId row = true)
      by apply has_clerk_id_refl.
    erewrite run_bind.
    2:{ erewrite run_bind by (apply run_user_create; exact Look).
        apply run_user_findUnique. }
    cbn [db users calls Prisma.matches].
    fold (display_name firstName lastName). fold row.
    rewrite (find_snoc_fresh _ _ row Look Key).
    rewrite (getData_tail_store _ row);
      [|cbn [db users]; apply find_snoc_fresh; assumption].
    cbn [db]. rewrite <- (provision_with_row (db w)).
    unfold with_row at 1. rewrite Look. reflexivity.
Qed.

End ProvisioningFunction.

(** ** What provisioning keeps and what it leaves alone *)

Lemma others_snoc_own (c : string) (us : list User) (u : User) :
  Prisma.has_clerk_id c u = true -> others c (us ++ [u]) = others c us.
Proof.
  intros K. unfold others. rewrite filter_app. simpl. rewrite K. simpl.
  apply app_nil_r.
Qed.

Section ProvisioningFrame.

Context {stripe : Stripe.Client}.

Variables (email clerkId : string).
Variables (firstName lastName profileImage : option string).

Lemma with_row_frame (d : Db) :
  let d' := with_row email clerkId firstName lastName d in
  payments d' = payments d
  /\ next_payment_id d' = next_payment_id d
  /\ others clerkId (users d') = others clerkId (users d)
  /\ (length (users d) <= length (users d') <= S (length (users d)))%nat.
Proof.
  cbv zeta. unfold with_row.
  destruct (find (Prisma.has_clerk_id clerkId) (users d)).
  - repeat split; lia.
  - cbn [users payments next_payment_id]. repeat split.
    + apply others_snoc_own. apply has_clerk_id_refl.
    + rewrite length_app. simpl. lia.
    + rewrite length_app. simpl. lia.
Qed.

Lemma provision_frame (d : Db) :
  let d' := snd (provision email clerkId firstName lastName d) in
  payments d' = payments d
  /\ next_payment_id d' = next_payment_id d
  /\ others clerkId (users d') = others clerkId (users d)
  /\ (length (users d) <= length (users d') <= S (length (users d)))%nat.
Proof.
  cbv zeta. destruct (with_row_frame d) as [P [N [O L]]].
  unfold provision.
  destruct (Js.truthy _); [cbn [snd]; auto|].
  destruct (Stripe.customers_create_response email) as [cust|e];
    [|cbn [snd]; auto].
  destruct (other_holder _ _ _); cbn [snd]; [auto|].
  unfold with_customer. cbn [users payments next_payment_id].
  rewrite others_update_row, length_update_row. auto.
Qed.

(** X1.  Whatever the outcome of the provisioning routine, the Payment
    rows are the ones before, the rows of the other users are the ones
    before, and the table of users has the same number of rows or one more. *)
Theorem getData_leaves_other_users_alone (w : World) :
  let w' :=
    snd (Dashboard.getData email clerkId firstName lastName profileImage w) in
  payments (db w') = payments (db w)
  /\ next_payment_id (db w') = next_payment_id (db w)
  /\ others clerkId (users (db w')) = others clerkId (users (db w))
  /\ (length (users (db w)) <= length (users (db w'))
      <= S (length (users (db w))))%nat.
Proof.
  cbv zeta.
  pose proof (getData_store email clerkId firstName lastName profileImage w)
    as S.
  cbv zeta in S. apply (f_equal snd) in S. cbn [snd] in S. rewrite S.
  apply provision_frame.
Qed.

(** X2.  The integrity constraints of the store (unique subject ids,
    unique primary keys below the counter, every Payment row owned by a
    User row) survive a run of the provisioning routine, also one that
    throws half-way. *)
Theorem getData_keeps_store_consistent (w : World) :
  consistent (db w) ->
  consistent
    (db (snd (Dashboard.getData email clerkId firstName lastName
                profileImage w))).
Proof. apply consistent_getData. Qed.

(** X3.  When the routine returns normally, the row of the subject id is in
    the store and carries a billing-customer reference: the non-empty one
    it had, with the store unchanged, or the id of the customer the
    provider has just created. *)
Theorem getData_returns_provisioned (w : World) :
  let r := Dashboard.getData email clerkId firstName lastName profileImage w in
  fst r = Returned tt ->
  (Js.truthy (customer_of clerkId (users (db w))) = true
   /\ db (snd r) = db w)
  \/ exists cust,
       Stripe.customers_create_response email = Returned cust
       /\ customer_of clerkId (users (db (snd r))) = Some (Stripe.id cust).
Proof.
  cbv zeta. intros Ok.
  pose proof (getData_store email clerkId firstName lastName profileImage w)
    as S.
  cbv zeta in S. rewrite Ok in S.
  unfold provision in S.
  destruct (Js.truthy
              (customer_of clerkId
                 (users (with_row email clerkId firstName lastName (db w)))))
    eqn:T.
  - left. injection S as S. unfold with_row in *.
    destruct (find (Prisma.has_clerk_id clerkId) (users (db w))) eqn:Look.
    + split; assumption.
    + unfold customer_of in T. cbn [users] in T.
      rewrite (find_snoc_fresh _ _ _ Look) in T;
        [discriminate|apply has_clerk_id_refl].
  - destruct (Stripe.customers_create_response email) as [cust|e];
      [|discriminate].
    destruct (other_holder _ _ _); [discriminate|].
    injection S as S. right. exists cust. split; [reflexivity|].
    rewrite S. unfold with_customer, customer_of. cbn [users].
    assert (Row : exists u,
               find (Prisma.has_clerk_id clerkId)
                 (users (with_row email clerkId firstName lastName (db w)))
               = Some u).
    { unfold with_row.
      destruct (find (Prisma.has_clerk_id clerkId) (users (db w))) eqn:Look.
      - rewrite Look. eexists. reflexivity.
      - cbn [users]. rewrite (find_snoc_fresh _ _ _ Look);
          [eexists; reflexivity|apply has_clerk_id_refl]. }
    destruct Row as [u Row].
    rewrite (find_update_row _ _ _ _ Row). reflexivity.
Qed.

(** X4.  An existing row without a usable reference is completed in place:
    when the provider creates the customer and no other row holds its id,
    the routine issues no creation of a row, writes the id on the row of
    the subject id and returns; the table keeps its length. *)
Theorem getData_completes_existing_row (w : World) (u : User)
    (cust : Stripe.Customer) :
  find (Prisma.has_clerk_id clerkId) (users (db w)) = Some u ->
  Js.truthy (stripe_customer_id u) = false ->
  Stripe.customers_create_response email = Returned cust ->
  other_holder clerkId (Stripe.id cust) (users (db w)) = false ->
  Dashboard.getData email clerkId firstName lastName profileImage w =
    (Returned tt,
     mkWorld (with_customer clerkId (Stripe.id cust) (db w))
       (calls w ++
          [ UserFindUnique (ByClerkId clerkId);
            ConsoleLog "Creating stripe customer";
            StripeCustomersCreate email;
            UserUpdate clerkId (Stripe.id cust);
            UserFindUnique (ByClerkId clerkId) ]))
  /\ find (Prisma.has_clerk_id clerkId)
       (users (with_customer clerkId (Stripe.id cust) (db w)))
     = Some (Prisma.set_customer (Stripe.id cust) u)
  /\ length (users (with_customer clerkId (Stripe.id cust) (db w)))
     = length (users (db w)).
Proof.
  intros Look Lacks Created Free. split; [|split].
  - assert (Here : existsb (Prisma.has_clerk_id clerkId) (users (db w)) = true).
    { destruct (existsb (Prisma.has_clerk_id clerkId) (users (db w))) eqn:X;
        [reflexivity|].
      apply find_none_existsb in X. congruence. }
    unfold Dashboard.getData.
    rewrite (run_bind _ _ _ _ _ (run_user_findUnique _ w)).
    cbn [Prisma.matches]. rewrite Look.
    erewrite run_bind by reflexivity.
    cbv beta iota. rewrite Lacks. cbn [negb]. unfold console_log.
    erewrite run_bind by reflexivity.
    erewrite run_bind by (rewrite run_customers_create, Created; reflexivity).
    erewrite run_bind by (apply run_user_update; assumption).
    erewrite run_bind by apply run_user_findUnique.
    unfold ret, with_customer. cbn [db calls].
    rewrite <- !app_assoc. reflexivity.
  - unfold with_customer. cbn [users]. apply find_update_row. exact Look.
  - unfold with_customer. cbn [users]. apply length_update_row.
Qed.

(** X5.  A reference, once set, stays: from a store in which the row of the
    subject id carries a non-empty reference, any number of later visits of
    that user, whatever e-mail address and names they report, return
    normally and leave the store as it is. *)
Theorem revisit_keeps_reference (visits : list Visit) (w : World) :
  Js.truthy (customer_of clerkId (users (db w))) = true ->
  fst (revisit clerkId visits w) = Returned tt
  /\ db (snd (revisit clerkId visits w)) = db w.
Proof.
  revert w. induction visits as [|v rest IH]; intros w Has.
  - split; reflexivity.
  - cbn [revisit].
    erewrite run_bind by (apply getData_run_provisioned; exact Has).
    apply (IH (mkWorld (db w) _)). exact Has.
Qed.

End ProvisioningFrame.

(** X6.  A visit that failed at the provider is made good by the next one:
    when the row of the subject id has no usable reference and the
    provider throws, a second run of the routine, with the provider in
    whatever state, ends as it would have ended in place of the first. *)
Theorem getData_retry_after_failure (down up : Stripe.Client)
    (email clerkId : string) (firstName lastName profileImage : option string)
    (w : World) (e : Exn) :
  Js.truthy (customer_of clerkId (users (db w))) = false ->
  @Stripe.customers_create_response down email = Thrown e ->
  let failed :=
    @Dashboard.getData down email clerkId firstName lastName profileImage w in
  let retry :=
    @Dashboard.getData up email clerkId firstName lastName profileImage
      (snd failed) in
  let direct :=
    @Dashboard.getData up email clerkId firstName lastName profileImage w in
  fst failed = Thrown e
  /\ fst retry = fst direct
  /\ db (snd retry) = db (snd direct).
Proof.
  intros Lacks Fails failed retry direct.
  pose proof (@getData_store down email clerkId firstName lastName
                profileImage w) as Sf.
  pose proof (@getData_store up email clerkId firstName lastName
                profileImage (snd failed)) as Sr.
  pose proof (@getData_store up email clerkId firstName lastName
                profileImage w) as Sd.
  cbv zeta in Sf, Sr, Sd. fold failed in Sf. fold retry in Sr.
  fold direct in Sd.
  assert (F : (fst failed, db (snd failed))
              = (Thrown e, with_row email clerkId firstName lastName (db w))).
  { rewrite Sf. unfold provision.
    assert (T : Js.truthy
                  (customer_of clerkId
                     (users (with_row email clerkId firstName lastName (db w))))
                = false).
    { unfold with_row.
      destruct (find (Prisma.has_clerk_id clerkId) (users (db w))) eqn:Look;
        [exact Lacks|].
      unfold customer_of. cbn [users].
      rewrite (find_snoc_fresh _ _ _ Look);
        [reflexivity|apply has_clerk_id_refl]. }
    rewrite T, Fails. reflexivity. }
  injection F as F1 F2.
  rewrite F2, provision_with_row, <- Sd in Sr.
  injection Sr as R1 R2. auto.
Qed.

(** ** A visit of a provisioned user *)

(** X7.  For a session with a subject id and an e-mail address whose User
    row carries a non-empty reference, the layout renders the shell around
    its children after one lookup; the store is untouched. *)
Theorem DashboardLayout_provisioned_visit {stripe : Stripe.Client}
    {Node : Type} (session : Clerk.Session) (children : Node)
    (userId email : string) (user : Clerk.ClerkUser) (w : World) :
  Clerk.userId session = Some userId ->
  userId <> ""%string ->
  Clerk.currentUser session = Some user ->
  session_email session = Some email ->
  email <> ""%string ->
  Js.truthy (customer_of userId (users (db w))) = true ->
  Dashboard.DashboardLayout session children w
  = (Returned (Dashboard.SidebarShell Node children),
     mkWorld (db w) (calls w ++ [UserFindUnique (ByClerkId userId)])).
Proof.
  intros Id IdT Usr Mail MailT Has.
  apply (DashboardLayout_renders session children userId email user);
    try assumption.
  apply getData_run_provisioned. exact Has.
Qed.

(** ** More on webhook ingestion *)

Lemma payment_checkout_iff (event : Stripe.Event) :
  is_payment_checkout event = true
  <-> Stripe.type event = "checkout.session.completed"%string
      /\ Stripe.mode (Stripe.data_object event) = "payment"%string.
Proof.
  unfold is_payment_checkout. split.
  - intros H. apply andb_true_iff in H. destruct H as [H Hp].
    apply andb_true_iff in H. destruct H as [Ht _].
    apply String.eqb_eq in Ht, Hp. auto.
  - intros [T Md]. rewrite T, Md. reflexivity.
Qed.

Lemma snoc_neq {A : Type} (l : list A) (x : A) : l ++ [x] <> l.
Proof.
  intros E. apply (f_equal (@length A)) in E.
  rewrite length_app in E. simpl in E. lia.
Qed.

Lemma NoDup_map_inj {A B : Type} (f : A -> B) (l : list A) (a b : A) :
  NoDup (map f l) -> In a l -> In b l -> f a = f b -> a = b.
Proof.
  induction l as [|x l IH]; simpl; intros N Ia Ib E; [contradiction|].
  inversion N as [|? ? Nx N']; subst.
  destruct Ia as [Ia|Ia], Ib as [Ib|Ib]; subst.
  - reflexivity.
  - exfalso. apply Nx. rewrite E. apply in_map. exact Ib.
  - exfalso. apply Nx. rewrite <- E. apply in_map. exact Ia.
  - apply IH; assumption.
Qed.

Section WebhookMore.

Context {stripe : Stripe.Client}.

Variable secret : option string.

(** The store after a delivery: the one before, or the one before with the
    row of the session appended. *)
Lemma POST_db_cases (req : Webhook.Request) (w : World) :
  let w' := snd (Webhook.POST secret req w) in
  db w' = db w
  \/ exists event user row,
       verified secret req event
       /\ is_payment_checkout event = true
       /\ find (Prisma.matches (customer_where (Stripe.data_object event)))
               (users (db w)) = Some user
       /\ row_of (db w) (payment_data (Stripe.data_object event) user)
          = Some row
       /\ db w' =
          mkDb (users (db w)) (payments (db w) ++ [row])
               (next_user_id (db w)) (S (next_payment_id (db w))).
Proof.
  cbv zeta.
  destruct (Stripe.webhooks_constructEvent (Webhook.text req)
              (Webhook.stripe_signature req) secret) as [event|e] eqn:V.
  - destruct (is_payment_checkout event) eqn:P.
    + destruct (find (Prisma.matches
                        (customer_where (Stripe.data_object event)))
                     (users (db w))) as [user|] eqn:F.
      * destruct (row_of (db w)
                    (payment_data (Stripe.data_object event) user))
          as [row|] eqn:R.
        -- right. exists event, user, row.
           rewrite (POST_run_payment secret req w event user V P F row R).
           repeat split; assumption.
        -- left.
           rewrite (POST_run_invalid secret req w event user V P F R).
           reflexivity.
      * left. rewrite (POST_run_unknown secret req w event V P F). reflexivity.
    + left. rewrite (POST_run_noop secret req w event V P). reflexivity.
  - left. rewrite (POST_run_rejected secret req w e V). reflexivity.
Qed.

(** X8.  The handler ends in one of four ways, whatever is delivered: it
    answers 400, it answers 200, it throws ["User not found"], or it lets
    through the rejection of an insertion that lacks the payment reference
    or the currency.  The last happens exactly for a verified
    [checkout.session.completed] in [payment] mode with a known customer
    whose session has a null [payment_intent] or [currency]; the store
    itself never refuses the row. *)
Theorem POST_outcomes (req : Webhook.Request) (w : World) :
  let r := fst (Webhook.POST secret req w) in
  (r = Returned (Webhook.mkResponse (Some "Webhook error") 400)
   \/ r = Returned (Webhook.mkResponse None 200)
   \/ r = Thrown (JsError "User not found")
   \/ r = Thrown (PrismaError "PrismaClientValidationError"))
  /\ (r = Thrown (PrismaError "PrismaClientValidationError")
      <-> exists event user,
            verified secret req event
            /\ Stripe.type event = "checkout.session.completed"%string
            /\ Stripe.mode (Stripe.data_object event) = "payment"%string
            /\ find (Prisma.has_customer_id
                       (Js.String_
                          (Stripe.customer (Stripe.data_object event))))
                    (users (db w)) = Some user
            /\ (Stripe.payment_intent (Stripe.data_object event) = None
                \/ Stripe.currency (Stripe.data_object event) = None)).
Proof.
  cbv zeta.
  destruct (Stripe.webhooks_constructEvent (Webhook.text req)
              (Webhook.stripe_signature req) secret) as [event|e] eqn:V.
  - destruct (is_payment_checkout event) eqn:P.
    + destruct (find (Prisma.matches
                        (customer_where (Stripe.data_object event)))
                     (users (db w))) as [user|] eqn:F.
      * destruct (row_of (db w)
                    (payment_data (Stripe.data_object event) user))
          as [row|] eqn:R.
        -- rewrite (POST_run_payment secret req w event user V P F row R).
           cbn [fst]. split; [auto|]. split; [discriminate|].
           intros [event' [user' [V' [_ [_ [F' Null]]]]]].
           unfold verified in V'. rewrite V in V'. injection V' as V'.
           subst event'. cbn [Prisma.matches customer_where] in F.
           rewrite F in F'. injection F' as F'. subst user'.
           rewrite (row_of_incomplete _ _ _ Null) in R. discriminate.
        -- rewrite (POST_run_invalid secret req w event user V P F R).
           cbn [fst]. split; [auto|]. split; [|reflexivity].
           intros _. exists event, user.
           apply payment_checkout_iff in P. destruct P as [T Md].
           repeat split; try assumption.
           unfold row_of, payment_data in R.
           cbn [d_stripe_payment_id d_currency] in R.
           destruct (Stripe.payment_intent (Stripe.data_object event));
             [|left; reflexivity].
           destruct (Stripe.currency (Stripe.data_object event));
             [discriminate|right; reflexivity].
      * rewrite (POST_run_unknown secret req w event V P F).
        cbn [fst]. split; [auto|]. split; [discriminate|].
        intros [event' [user' [V' [_ [_ [F' _]]]]]].
        unfold verified in V'. rewrite V in V'. injection V' as V'.
        subst event'. cbn [Prisma.matches customer_where] in F.
        rewrite F in F'. discriminate.
    + rewrite (POST_run_noop secret req w event V P).
      cbn [fst]. split; [auto|]. split; [discriminate|].
      intros [event' [user' [V' [T [Md _]]]]].
      unfold verified in V'. rewrite V in V'. injection V' as V'.
      subst event'.
      assert (P' : is_payment_checkout event = true)
        by (apply payment_checkout_iff; auto).
      congruence.
  - rewrite (POST_run_rejected secret req w e V).
    cbn [fst]. split; [auto|]. split; [discriminate|].
    intros [event' [user' [V' _]]].
    unfold verified in V'. rewrite V in V'. discriminate.
Qed.

(** X9.  The table of payments changes exactly when the delivery verifies,
    is a [checkout.session.completed] in [payment] mode, its session
    carries a payment reference and a currency, and its customer reference
    is the [stripe_customer_id] of a User row. *)
Theorem POST_inserts_iff (req : Webhook.Request) (w : World) :
  payments (db (snd (Webhook.POST secret req w))) <> payments (db w)
  <-> exists event user payment_ref cur,
        verified secret req event
        /\ Stripe.type event = "checkout.session.completed"%string
        /\ Stripe.mode (Stripe.data_object event) = "payment"%string
        /\ Stripe.payment_intent (Stripe.data_object event) = Some payment_ref
        /\ Stripe.currency (Stripe.data_object event) = Some cur
        /\ find (Prisma.has_customer_id
                   (Js.String_ (Stripe.customer (Stripe.data_object event))))
                (users (db w)) = Some user.
Proof.
  split.
  - intros Changed.
    destruct (POST_db_cases req w)
      as [Same | [event [user [row [V [P [F [R _]]]]]]]].
    + exfalso. apply Changed. cbv zeta in Same. rewrite Same. reflexivity.
    + apply payment_checkout_iff in P. destruct P as [T Md].
      unfold row_of, payment_data in R.
      cbn [d_stripe_payment_id d_currency] in R.
      destruct (Stripe.payment_intent (Stripe.data_object event))
        as [payment_ref|] eqn:I; [|discriminate].
      destruct (Stripe.currency (Stripe.data_object event))
        as [cur|] eqn:C; [|discriminate].
      exists event, user, payment_ref, cur. auto 10.
  - intros [event [user [payment_ref [cur [V [T [Md [I [C F]]]]]]]]].
    assert (P : is_payment_checkout event = true)
      by (apply payment_checkout_iff; auto).
    rewrite (POST_run_payment secret req w event user V P F _
               (row_of_complete _ _ _ _ _ I C)).
    cbn [snd db payments]. apply snoc_neq.
Qed.

(** X10.  The handler does not recognise a delivery it has seen: the same
    request, for a session with a payment reference and a currency,
    delivered twice appends two rows with the same payment reference and
    distinct primary keys. *)
Theorem POST_redelivery_duplicates (req : Webhook.Request) (w : World)
    (event : Stripe.Event) (user : User) (payment_ref cur : string) :
  verified secret req event ->
  Stripe.type event = "checkout.session.completed"%string ->
  Stripe.mode (Stripe.data_object event) = "payment"%string ->
  Stripe.payment_intent (Stripe.data_object event) = Some payment_ref ->
  Stripe.currency (Stripe.data_object event) = Some cur ->
  find (Prisma.has_customer_id
          (Js.String_ (Stripe.customer (Stripe.data_object event))))
       (users (db w)) = Some user ->
  exists row1 row2,
    payments (db (snd (Webhook.POST secret req
                         (snd (Webhook.POST secret req w)))))
    = payments (db w) ++ [row1; row2]
    /\ stripe_payment_id row1 = payment_ref
    /\ stripe_payment_id row2 = payment_ref
    /\ payment_id row1 <> payment_id row2.
Proof.
  intros V T Md I C F.
  assert (P : is_payment_checkout event = true)
    by (apply payment_checkout_iff; auto).
  rewrite (POST_run_payment secret req w event user V P F _
             (row_of_complete _ _ _ _ _ I C)).
  cbn [snd].
  erewrite POST_run_payment;
    [|exact V|exact P|exact F|apply row_of_complete; eassumption].
  cbn [snd db payments next_payment_id]. eexists. eexists.
  rewrite <- app_assoc. split; [reflexivity|].
  cbn. repeat split. lia.
Qed.

(** X11.  The constraints of the store survive every delivery. *)
Theorem POST_keeps_store_consistent (req : Webhook.Request) (w : World) :
  consistent (db w) ->
  consistent (db (snd (Webhook.POST secret req w))).
Proof. apply consistent_POST. Qed.

Section View.

Variable clerkId : string.
Variable session : Clerk.Session.

Hypothesis session_user : Clerk.userId session = Some clerkId.
Hypothesis session_id : clerkId <> ""%string.

Lemma find_snoc_found {A : Type} (f : A -> bool) (l : list A) (x y : A) :
  find f l = Some y -> find f (l ++ [x]) = Some y.
Proof.
  induction l as [|z l IH]; simpl; intros F; [discriminate|].
  destruct (f z); [exact F|]. apply IH. exact F.
Qed.

(** X12.  Once the user owns a Payment row, no delivery changes what the
    billing page shows: rows are appended, and the page reads the first. *)
Theorem POST_later_deliveries_keep_view (req : Webhook.Request) (w : World)
    (p : Payment) :
  find (Prisma.owned_by (users (db w)) clerkId) (payments (db w)) = Some p ->
  fst (Billing.BillingPage session (snd (Webhook.POST secret req w)))
  = fst (Billing.BillingPage session w).
Proof.
  intros Owns.
  rewrite !(BillingPage_run clerkId session _ session_user session_id).
  cbn [fst]. unfold first_row_status.
  destruct (POST_db_cases req w)
    as [Same | [event [user [row [_ [_ [_ [_ New]]]]]]]].
  - cbv zeta in Same. rewrite Same. reflexivity.
  - cbv zeta in New. rewrite New. cbn [users payments].
    rewrite (find_snoc_found _ _ _ p Owns), Owns. reflexivity.
Qed.

(** X13.  For a user that owns no Payment row yet, the first completed
    checkout whose session carries a payment reference and a currency
    decides: after the delivery, the page shows the "manage subscription"
    branch exactly when the session's payment status is ["paid"]. *)
Theorem POST_first_payment_decides_view (req : Webhook.Request) (w : World)
    (event : Stripe.Event) (user : User) (payment_ref cur : string) :
  consistent (db w) ->
  verified secret req event ->
  Stripe.type event = "checkout.session.completed"%string ->
  Stripe.mode (Stripe.data_object event) = "payment"%string ->
  Stripe.payment_intent (Stripe.data_object event) = Some payment_ref ->
  Stripe.currency (Stripe.data_object event) = Some cur ->
  find (Prisma.has_customer_id
          (Js.String_ (Stripe.customer (Stripe.data_object event))))
       (users (db w)) = Some user ->
  clerk_id user = clerkId ->
  find (Prisma.owned_by (users (db w)) clerkId) (payments (db w)) = None ->
  fst (Billing.BillingPage session (snd (Webhook.POST secret req w)))
  = Returned
      (if (Stripe.payment_status (Stripe.data_object event) =? "paid")%string
       then Billing.ManageSubscription
       else Billing.OfferPurchase).
Proof.
  intros Ok V T Md I C F Mine None_yet.
  assert (P : is_payment_checkout event = true)
    by (apply payment_checkout_iff; auto).
  rewrite (BillingPage_run clerkId session _ session_user session_id).
  rewrite (POST_run_payment secret req w event user V P F _
             (row_of_complete _ _ _ _ _ I C)).
  cbn [fst snd db]. unfold first_row_status. cbn [users payments].
  rewrite find_snoc_fresh with (1 := None_yet); [reflexivity|].
  unfold Prisma.owned_by, Prisma.owner. cbn [pay_user_id].
  destruct (find (fun u => user_id u =? user_id user)%nat (users (db w)))
    as [u'|] eqn:O.
  - apply find_some in O. destruct O as [I' E]. apply Nat.eqb_eq in E.
    apply find_some in F. destruct F as [Iu _].
    rewrite (NoDup_map_inj user_id _ u' user (user_ids_unique _ Ok) I' Iu E).
    unfold Prisma.has_clerk_id. rewrite Mine. apply String.eqb_refl.
  - apply find_none_existsb in O.
    rewrite (owner_exists _ _ _ F) in O. discriminate.
Qed.

(** X27.  When the session of a verified [checkout.session.completed] in
    [payment] mode with a known customer has a null [payment_intent] or a
    null [currency], the handler throws the client's rejection after the
    lookup: no row is inserted and no response is produced. *)
Theorem POST_incomplete_session_throws (req : Webhook.Request) (w : World)
    (event : Stripe.Event) (user : User) :
  verified secret req event ->
  Stripe.type event = "checkout.session.completed"%string ->
  Stripe.mode (Stripe.data_object event) = "payment"%string ->
  find (Prisma.has_customer_id
          (Js.String_ (Stripe.customer (Stripe.data_object event))))
       (users (db w)) = Some user ->
  Stripe.payment_intent (Stripe.data_object event) = None
  \/ Stripe.currency (Stripe.data_object event) = None ->
  exists issued,
    Webhook.POST secret req w =
      (Thrown (PrismaError "PrismaClientValidationError"),
       mkWorld (db w) (calls w ++ issued)).
Proof.
  intros V T Md F Null.
  assert (P : is_payment_checkout event = true)
    by (apply payment_checkout_iff; auto).
  eexists.
  apply (POST_run_invalid secret req w event user V P F).
  apply row_of_incomplete. exact Null.
Qed.

End View.
End WebhookMore.

(** ** More on the billing page *)

Lemma find_split {A : Type} (f : A -> bool) (l : list A) (x : A) :
  find f l = Some x
  <-> exists before after,
        l = before ++ x :: after
        /\ forallb (fun y => negb (f y)) before = true
        /\ f x = true.
Proof.
  split.
  - induction l as [|y l IH]; simpl; intros F; [discriminate|].
    destruct (f y) eqn:Y.
    + injection F as F. subst y. exists [], l. auto.
    + destruct (IH F) as [before [after [E [B X]]]].
      exists (y :: before), after. subst l. simpl. rewrite Y. auto.
  - intros [before [after [E [B X]]]]. subst l.
    induction before as [|y before IH]; simpl.
    + rewrite X. reflexivity.
    + simpl in B. apply andb_true_iff in B. destruct B as [Y B].
      apply negb_true_iff in Y. rewrite Y. apply IH. exact B.
Qed.

Section BillingMore.

Variable session : Clerk.Session.

(** X14.  Without a subject id in the session the billing page redirects
    to ["/"] before it queries anything. *)
Theorem BillingPage_unauthenticated_redirects (w : World) :
  Js.truthy (Clerk.userId session) = false ->
  Billing.BillingPage session w = (Thrown (NextRedirect "/"), w).
Proof.
  intros No. unfold Billing.BillingPage. rewrite No.
  destruct (Clerk.userId session); reflexivity.
Qed.

(** X15.  Rendering the billing page never writes: the store is the one
    before, and the only call it may issue is the one query for the
    signed-in user's first payment. *)
Theorem BillingPage_read_only (w : World) :
  let w' := snd (Billing.BillingPage session w) in
  db w' = db w
  /\ (calls w' = calls w
      \/ exists clerkId, Clerk.userId session = Some clerkId
                         /\ calls w' = calls w ++ [PaymentFindFirst clerkId]).
Proof.
  cbv zeta.
  destruct (Js.truthy (Clerk.userId session)) eqn:T.
  - destruct (Clerk.userId session) as [c|] eqn:Id; [|discriminate].
    assert (Ne : c <> ""%string).
    { intros E. subst c. discriminate. }
    rewrite (BillingPage_run c session w Id Ne). cbn [snd db calls].
    split; [reflexivity|]. right. exists c. auto.
  - rewrite (BillingPage_unauthenticated_redirects w T). auto.
Qed.

(** X16.  For a signed-in user the "manage subscription" branch is rendered
    exactly when, in the order of the table, the first Payment row owned
    by the user has status ["paid"]; rows behind it are not looked at. *)
Theorem BillingPage_manage_iff_first_owned_row_paid (clerkId : string)
    (w : World) :
  Clerk.userId session = Some clerkId ->
  clerkId <> ""%string ->
  fst (Billing.BillingPage session w) = Returned Billing.ManageSubscription
  <-> exists before p after,
        payments (db w) = before ++ p :: after
        /\ forallb (fun q => negb (Prisma.owned_by (users (db w)) clerkId q))
                   before = true
        /\ Prisma.owned_by (users (db w)) clerkId p = true
        /\ status p = "paid"%string.
Proof.
  intros Id Ne.
  rewrite (BillingPage_first_row clerkId session w Id Ne).
  unfold first_row_status. split.
  - destruct (find (Prisma.owned_by (users (db w)) clerkId) (payments (db w)))
      as [p|] eqn:F; [|discriminate].
    simpl. intros E. injection E as E.
    apply find_split in F. destruct F as [before [after [L [B O]]]].
    exists before, p, after. auto.
  - intros [before [p [after [L [B [O S]]]]]].
    assert (F : find (Prisma.owned_by (users (db w)) clerkId) (payments (db w))
                = Some p).
    { apply find_split. exists before, after. auto. }
    rewrite F. simpl. rewrite S. reflexivity.
Qed.

End BillingMore.

(** ** The server actions *)

Section ActionRuns.

Context {hosted : BillingActions.Hosted}.

Variable env : BillingActions.Env.

(** X17.  Without a usable billing-customer reference on the user's row
    (or without the row), [createSubscription] throws its own error,
    whatever the hosted checkout would have answered; it reads the row
    and writes nothing. *)
Theorem createSubscription_without_customer (clerkId : string) (w : World) :
  Js.truthy (customer_of clerkId (users (db w))) = false ->
  BillingActions.createSubscription env clerkId w =
  (Thrown (JsError
     "No stripe customer id found. Please refresh the page and try again."),
   mkWorld (db w)
     (calls w ++ [ UserFindUnique (ByClerkId clerkId);
                   ConsoleLog "User found:";
                   ConsoleLog "Stripe customer ID:" ])).
Proof.
  unfold customer_of. intros Lacks.
  unfold BillingActions.createSubscription, console_log.
  erewrite run_bind by apply run_user_findUnique.
  erewrite run_bind by reflexivity.
  erewrite run_bind by reflexivity.
  cbn [db calls Prisma.matches]. rewrite Lacks.
  rewrite <- !app_assoc.
  destruct (match find (Prisma.has_clerk_id clerkId) (users (db w)) with
            | Some u => stripe_customer_id u
            | None => None
            end); reflexivity.
Qed.

(** X18.  With a reference on the user's row, [createSubscription] asks for
    a hosted checkout for exactly that customer, the configured return
    domain (or [http://localhost:3000] when none is configured) and the
    configured price, and redirects to the URL it gets; when the request
    throws, the exception is the action's.  The store is untouched either
    way. *)
Theorem createSubscription_redirects (clerkId cid : string) (w : World) :
  customer_of clerkId (users (db w)) = Some cid ->
  cid <> ""%string ->
  let asked :=
    BillingActions.mkCheckoutParams cid (return_domain env)
      (BillingActions.STRIPE_PRICE_ID env) in
  let w' :=
    mkWorld (db w)
      (calls w ++ [ UserFindUnique (ByClerkId clerkId);
                    ConsoleLog "User found:";
                    ConsoleLog "Stripe customer ID:" ]) in
  BillingActions.createSubscription env clerkId w =
  (match BillingActions.getStripeSession asked with
   | Returned subscriptionUrl => Thrown (NextRedirect subscriptionUrl)
   | Thrown e => Thrown e
   end, w').
Proof.
  intros Has Ne asked w'. unfold customer_of in Has.
  apply String.eqb_neq in Ne.
  unfold BillingActions.createSubscription, console_log.
  erewrite run_bind by apply run_user_findUnique.
  erewrite run_bind by reflexivity.
  erewrite run_bind by reflexivity.
  cbn [db calls Prisma.matches]. rewrite Has. cbn [Js.truthy]. rewrite Ne.
  cbn [negb]. unfold bind, lift, redirect, throw.
  fold (return_domain env). fold asked.
  unfold w'. rewrite <- !app_assoc.
  destruct (BillingActions.getStripeSession asked); reflexivity.
Qed.

(** X19.  [createCustomerPortal] asks for a portal session that returns to
    [/dashboard/billing] under the return domain, for the customer of the
    data the page had fetched, and redirects to the session's URL; when
    the request throws, the exception is the action's.  It neither reads
    nor writes the store. *)
Theorem createCustomerPortal_redirects (data : option Billing.Data)
    (w : World) :
  let asked :=
    BillingActions.mkPortalParams
      (match data with
       | Some d => Billing.data_user_stripe_customer_id d
       | None => None
       end)
      (return_domain env ++ "/dashboard/billing")%string in
  BillingActions.createCustomerPortal env data w =
  (match BillingActions.billingPortal_sessions_create asked with
   | Returned session => Thrown (NextRedirect (BillingActions.url session))
   | Thrown e => Thrown e
   end, w).
Proof.
  cbv zeta. unfold BillingActions.createCustomerPortal.
  unfold bind, lift, redirect, throw. fold (return_domain env).
  destruct (BillingActions.billingPortal_sessions_create _); reflexivity.
Qed.

(** X20.  On a consistent store, the customer of the data the page fetches
    is the signed-in user's own reference: the portal is never opened for
    another user's customer. *)
Theorem getData_customer_is_own (clerkId : string) (w : World)
    (d : Billing.Data) :
  consistent (db w) ->
  fst (Billing.getData clerkId w) = Returned (Some d) ->
  Billing.data_user_stripe_customer_id d
  = customer_of clerkId (users (db w)).
Proof.
  intros Ok. unfold Billing.getData, Prisma.payment_findFirst.
  unfold bind, record, get_db, ret. cbn [fst db].
  destruct (find (Prisma.owned_by (users (db w)) clerkId) (payments (db w)))
    as [p|] eqn:F; [|discriminate].
  simpl. intros E. injection E as E. subst d.
  cbn [Billing.data_user_stripe_customer_id].
  apply find_some in F. destruct F as [_ O].
  unfold Prisma.owned_by in O.
  destruct (Prisma.owner (users (db w)) p) as [u|] eqn:Ow; [|discriminate].
  unfold Prisma.owner in Ow. apply find_some in Ow. destruct Ow as [Iu _].
  unfold customer_of.
  destruct (find (Prisma.has_clerk_id clerkId) (users (db w))) as [u'|] eqn:L.
  - apply find_some in L. destruct L as [Iu' K'].
    unfold Prisma.has_clerk_id in O, K'.
    apply String.eqb_eq in O, K'.
    rewrite (NoDup_map_inj clerk_id _ u u' (clerk_ids_unique _ Ok) Iu Iu');
      [reflexivity|congruence].
  - apply find_none_existsb in L.
    assert (X : existsb (Prisma.has_clerk_id clerkId) (users (db w)) = true)
      by (apply existsb_exists; exists u; auto).
    congruence.
Qed.

End ActionRuns.

(** ** The account menu *)

Lemma split_nonempty (c : ascii) (s : string) :
  exists piece pieces, JsString.split c s = piece :: pieces.
Proof.
  induction s as [|a s IH]; simpl.
  - eexists. eexists. reflexivity.
  - destruct (Ascii.eqb a c).
    + eexists. eexists. reflexivity.
    + destruct IH as [piece [pieces E]]. rewrite E.
      eexists. eexists. reflexivity.
Qed.

Lemma includes_split_two (c : ascii) (s : string) :
  JsString.includes c s = true ->
  exists p0 p1 rest, JsString.split c s = p0 :: p1 :: rest.
Proof.
  induction s as [|a s IH]; simpl; intros I; [discriminate|].
  destruct (Ascii.eqb a c); simpl in I.
  - destruct (split_nonempty c s) as [piece [pieces E]]. rewrite E.
    eexists. eexists. eexists. reflexivity.
  - destruct (IH I) as [p0 [p1 [rest E]]]. rewrite E.
    eexists. eexists. eexists. reflexivity.
Qed.

Lemma split_spaceless (c : ascii) (p r : string) :
  JsString.includes c p = false ->
  JsString.split c (p ++ String c r) = p :: JsString.split c r.
Proof.
  induction p as [|x p IH]; simpl; intros N.
  - rewrite Ascii.eqb_refl. reflexivity.
  - apply orb_false_iff in N. destruct N as [X N].
    rewrite X, (IH N). reflexivity.
Qed.

Lemma split_head (c b : ascii) (r : string) :
  Ascii.eqb b c = false ->
  exists piece pieces, JsString.split c (String b r) = String b piece :: pieces.
Proof.
  intros N. simpl. rewrite N.
  destruct (JsString.split c r); eexists; eexists; reflexivity.
Qed.

Lemma includes_app_sep (c : ascii) (p r : string) :
  JsString.includes c (p ++ String c r) = true.
Proof.
  induction p as [|x p IH]; simpl.
  - rewrite Ascii.eqb_refl. reflexivity.
  - rewrite IH. apply orb_true_r.
Qed.

Lemma or_else_nonempty (a : option string) (b : string) :
  b <> ""%string -> JsString.or_else a b <> ""%string.
Proof.
  intros Nb. unfold JsString.or_else. destruct a as [v|]; [|exact Nb].
  destruct (String.eqb_spec v ""); assumption.
Qed.

Lemma or_else_truthy (v b : string) :
  v <> ""%string -> JsString.or_else (Some v) b = v.
Proof.
  intros N. apply String.eqb_neq in N. unfold JsString.or_else.
  rewrite N. reflexivity.
Qed.

Lemma interpolate_nonempty (o : option ascii) (s : string) :
  (JsString.interpolate o ++ s)%string <> ""%string.
Proof. destruct o; discriminate. Qed.

Lemma avatar_fallback_nonempty (name : string) :
  name <> ""%string ->
  exists text, UserNav.avatar_fallback name = Returned text
               /\ text <> ""%string.
Proof.
  intros N. unfold UserNav.avatar_fallback.
  destruct (JsString.includes UserNav.space name) eqn:I.
  - destruct (includes_split_two _ _ I) as [p0 [p1 [rest E]]]. rewrite E.
    simpl. eexists. split; [reflexivity|]. apply interpolate_nonempty.
  - eexists. split; [reflexivity|].
    destruct name as [|a name]; [congruence|].
    simpl. discriminate.
Qed.

Section Menu.

(** X21.  The menu renders for every user, signed in or not, without
    throwing, and neither the name it shows nor the text of the avatar
    fallback is empty. *)
Theorem UserNav_never_empty (user : option UserNav.UserResource) :
  exists v,
    UserNav.UserNav user = Returned v
    /\ UserNav.view_name v <> ""%string
    /\ UserNav.view_fallback v <> ""%string.
Proof.
  assert (N : menu_name user <> ""%string).
  { unfold menu_name. apply or_else_nonempty. apply or_else_nonempty.
    discriminate. }
  destruct (avatar_fallback_nonempty _ N) as [text [E T]].
  unfold UserNav.UserNav. fold (menu_name user). rewrite E.
  eexists. split; [reflexivity|]. split; assumption.
Qed.

(** X22.  For a full name made of a first word, a space and a rest that
    does not begin with a space, the avatar fallback is the first character
    of the first word followed by the first character of the rest. *)
Theorem UserNav_two_initials (u : UserNav.UserResource) (a b : ascii)
    (word rest : string) :
  UserNav.fullName u
  = Some (String a word ++ String UserNav.space (String b rest))%string ->
  JsString.includes UserNav.space (String a word) = false ->
  b <> UserNav.space ->
  exists v,
    UserNav.UserNav (Some u) = Returned v
    /\ UserNav.view_fallback v = String a (String b EmptyString).
Proof.
  intros Full Word B. apply Ascii.eqb_neq in B.
  unfold UserNav.UserNav. rewrite Full.
  rewrite or_else_truthy by discriminate.
  unfold UserNav.avatar_fallback.
  rewrite includes_app_sep, (split_spaceless _ _ _ Word).
  destruct (split_head UserNav.space b rest B) as [piece [pieces E]].
  rewrite E. simpl. eexists. split; reflexivity.
Qed.

(** X23.  A space with nothing usable on one side of it puts the word
    [undefined] into the avatar: a full name that begins with a space gives
    a fallback that begins with ["undefined"], and a first word followed by
    a space and then by the end of the name or by another space gives the
    first character followed by ["undefined"]. *)
Theorem UserNav_undefined_initial (u : UserNav.UserResource) (a : ascii)
    (word rest : string) :
  (UserNav.fullName u = Some (String UserNav.space rest) ->
   exists v tail,
     UserNav.UserNav (Some u) = Returned v
     /\ UserNav.view_fallback v = ("undefined" ++ tail)%string)
  /\ (UserNav.fullName u
      = Some (String a word ++ String UserNav.space rest)%string ->
      JsString.includes UserNav.space (String a word) = false ->
      JsString.first_char rest = None
      \/ JsString.first_char rest = Some UserNav.space ->
      exists v,
        UserNav.UserNav (Some u) = Returned v
        /\ UserNav.view_fallback v = String a "undefined").
Proof.
  split.
  - intros Full. unfold UserNav.UserNav. rewrite Full.
    rewrite or_else_truthy by discriminate.
    unfold UserNav.avatar_fallback.
    change (String UserNav.space rest)
      with (EmptyString ++ String UserNav.space rest)%string.
    rewrite includes_app_sep, split_spaceless by reflexivity.
    destruct (split_nonempty UserNav.space rest) as [piece [pieces E]].
    rewrite E. simpl. eexists. eexists. split; reflexivity.
  - intros Full Word Edge. unfold UserNav.UserNav. rewrite Full.
    rewrite or_else_truthy by discriminate.
    unfold UserNav.avatar_fallback.
    rewrite includes_app_sep, (split_spaceless _ _ _ Word).
    destruct rest as [|x rest]; simpl.
    + eexists. split; reflexivity.
    + destruct Edge as [Edge|Edge]; [discriminate|].
      simpl in Edge. injection Edge as Edge. subst x.
      rewrite Ascii.eqb_refl. simpl. eexists. split; reflexivity.
Qed.

End Menu.

(** ** Concrete runs *)

Section Runs.

Import Fixture.

(** C1.  The billing page looks at the first Payment row the store returns
    for the user and at no other.  Two deliveries for the same customer,
    the first completed unpaid and the second paid, leave two rows owned
    by the user; a row with status ["paid"] exists, and the page still
    renders the "offer to purchase" branch. *)
Theorem BillingPage_overlooks_later_paid_row :
  exists w1 w2 : World,
    @Webhook.POST provider_up secret (signed "evt_unpaid") world_u_1
      = (Returned (Webhook.mkResponse None 200), w1)
    /\ @Webhook.POST provider_up secret (signed "evt_paid") w1
      = (Returned (Webhook.mkResponse None 200), w2)
    /\ map status (payments (db w2)) = ["unpaid"; "paid"]%string
    /\ map pay_user_id (payments (db w2)) = [user_id u_1; user_id u_1]
    /\ has_paid_row "u_1" (db w2) = true
    /\ fst (Billing.BillingPage clerk_session w2)
       = Returned Billing.OfferPurchase.
Proof.
  eexists. eexists.
  split; [vm_compute; reflexivity|].
  split; [vm_compute; reflexivity|].
  repeat split; vm_compute; reflexivity.
Qed.

Lemma getData_first_visit_scenario :
  let row := mkUser 0 "u_1" "a@b.com" "A B" (Some "cus_123") in
  let w' :=
    mkWorld (mkDb [row] [] 1 0)
      (first_visit_calls "a@b.com" "u_1" (Some "A") (Some "B") "cus_123") in
  @Dashboard.getData provider_up "a@b.com" "u_1" (Some "A") (Some "B") None
    empty_world = (Returned tt, w')
  /\ filter (Prisma.has_clerk_id "u_1") (users (db w')) = [row]
  /\ customer_of "u_1" (users (db w')) = Some "cus_123"%string.
Proof.
  exact (@getData_first_visit provider_up "a@b.com" "u_1" (Some "A")
           (Some "B") None empty_world (Stripe.mkCustomer "cus_123")
           eq_refl eq_refl eq_refl).
Defined.

Lemma getData_provisioned_noop_scenario :
  exists issued : list Call,
    @Dashboard.getData provider_down "a@b.com" "u_1" (Some "A") (Some "B")
      None world_u_1 = (Returned tt, mkWorld (db world_u_1) issued)
    /\ issued = [UserFindUnique (ByClerkId "u_1")]
    /\ existsb is_write issued = false
    /\ existsb is_provider_call issued = false.
Proof.
  exact (@getData_provisioned_noop provider_down "a@b.com" "u_1" (Some "A")
           (Some "B") None world_u_1 eq_refl).
Defined.

Lemma getData_provider_failure_scenario :
  exists (w' : World) (issued : list Call),
    @Dashboard.getData provider_down "a@b.com" "u_1" (Some "A") (Some "B")
      None empty_world = (Thrown (StripeError "api_connection_error"), w')
    /\ calls w' = issued
    /\ (forall c cid, ~ In (UserUpdate c cid) issued)
    /\ In (StripeCustomersCreate "a@b.com") issued
    /\ (users (db w') = []
        \/ exists row, users (db w') = [row] /\ stripe_customer_id row = None)
    /\ payments (db w') = []
    /\ exists u, find (Prisma.has_clerk_id "u_1") (users (db w')) = Some u
                 /\ Js.truthy (stripe_customer_id u) = false.
Proof.
  exact (@getData_provider_failure provider_down "a@b.com" "u_1" (Some "A")
           (Some "B") None empty_world (StripeError "api_connection_error")
           eq_refl eq_refl).
Defined.

Lemma DashboardLayout_redirects_scenario :
  @Dashboard.DashboardLayout provider_up nat
    (Clerk.mkSession (Some "u_1") (Some (Clerk.mkClerkUser [] None None "")))
    0%nat empty_world
  = (Thrown (NextRedirect "/"), empty_world).
Proof.
  apply (@DashboardLayout_redirects provider_up nat).
  right. right. reflexivity.
Defined.

Lemma POST_payment_inserts_one_row_scenario :
  exists (row : Payment) (issued : list Call),
    @Webhook.POST provider_up secret (signed "evt_paid") world_u_1 =
      (Returned (Webhook.mkResponse None 200),
       mkWorld (mkDb [u_1] [row] 1 1) issued)
    /\ length (filter is_write issued) = 1%nat
    /\ stripe_payment_id row = "pi_1"%string
    /\ pay_user_id row = 0%nat
    /\ (forall a, Some 4000%Z = Some a -> (Z.abs a < 10 ^ 15)%Z ->
                  (amount row == a # 100)%Q)
    /\ currency row = "usd"%string
    /\ status row = "paid"%string.
Proof.
  exact (@POST_payment_inserts_one_row provider_up secret (signed "evt_paid")
           world_u_1
           (checkout "payment" (Some "cus_123") "pi_1" (Some 4000%Z) "paid")
           u_1 "pi_1" "usd" eq_refl eq_refl eq_refl eq_refl eq_refl eq_refl).
Defined.

(** The checkout that needed no payment is verified, in [payment] mode and
    for a known customer, and the handler throws without inserting. *)
Lemma POST_free_checkout_inserts_nothing :
  verified (stripe := provider_up) secret (signed "evt_free") free_checkout
  /\ Stripe.type free_checkout = "checkout.session.completed"%string
  /\ Stripe.mode (Stripe.data_object free_checkout) = "payment"%string
  /\ find (Prisma.has_customer_id
             (Js.String_ (Stripe.customer (Stripe.data_object free_checkout))))
          (users (db world_u_1)) = Some u_1
  /\ @Webhook.POST provider_up secret (signed "evt_free") world_u_1
     = (Thrown (PrismaError "PrismaClientValidationError"),
        mkWorld (db world_u_1)
          [ UserFindUnique (ByStripeCustomerId "cus_123");
            PaymentCreate
              (mkPaymentData None 0 (inject_Z 0 / inject_Z 100)%Q
                 (Some "usd") "no_payment_required") ])
  /\ ~ (exists (row : Payment) (issued : list Call),
          @Webhook.POST provider_up secret (signed "evt_free") world_u_1 =
          (Returned (Webhook.mkResponse None 200),
           mkWorld (mkDb (users (db world_u_1))
                         (payments (db world_u_1) ++ [row])
                         (next_user_id (db world_u_1))
                         (S (next_payment_id (db world_u_1))))
                   (calls world_u_1 ++ issued))).
Proof.
  repeat split; try reflexivity.
  intros [row [issued E]]. vm_compute in E. discriminate E.
Qed.

Lemma POST_rejects_bad_signature_scenario :
  exists resp,
    @Webhook.POST provider_up secret (Webhook.mkRequest "evt_paid" None)
      world_u_1 = (Returned resp, world_u_1)
    /\ Webhook.status_code resp = 400%Z.
Proof.
  eapply (@POST_rejects_bad_signature provider_up secret
            (Webhook.mkRequest "evt_paid" None) world_u_1).
  reflexivity.
Defined.

Lemma POST_unknown_customer_throws_scenario :
  exists (e : Exn) (issued : list Call),
    @Webhook.POST provider_up secret (signed "evt_stranger") world_u_1
      = (Thrown e, mkWorld (db world_u_1) issued)
    /\ e = JsError "User not found"
    /\ existsb is_write issued = false.
Proof.
  exact (@POST_unknown_customer_throws provider_up secret
           (signed "evt_stranger") world_u_1
           (checkout "payment" (Some "cus_999") "pi_2" (Some 4000%Z) "paid")
           eq_refl eq_refl eq_refl eq_refl).
Defined.

Lemma POST_side_effects_scenario :
  @Webhook.POST provider_up secret (signed "evt_subscription") world_u_1
  = (Returned (Webhook.mkResponse None 200), world_u_1).
Proof.
  apply (proj1 (@POST_side_effects provider_up secret
                  (signed "evt_subscription") world_u_1)
           (checkout "subscription" (Some "cus_123") "pi_4" (Some 4000%Z)
              "paid")).
  - reflexivity.
  - left. split; reflexivity.
Defined.

Lemma POST_missing_amount_is_zero_scenario :
  exists (row : Payment) (issued : list Call),
    @Webhook.POST provider_up secret (signed "evt_no_amount") world_u_1 =
      (Returned (Webhook.mkResponse None 200),
       mkWorld (mkDb [u_1] [row] 1 1) issued)
    /\ (amount row == 0)%Q
    /\ pay_user_id row = 0%nat
    /\ stripe_payment_id row = "pi_3"%string
    /\ currency row = "usd"%string.
Proof.
  exact (@POST_missing_amount_is_zero provider_up secret
           (signed "evt_no_amount") world_u_1
           (checkout "payment" (Some "cus_123") "pi_3" None "paid")
           u_1 "pi_3" "usd" eq_refl eq_refl eq_refl eq_refl eq_refl eq_refl
           eq_refl).
Defined.

(** The session without an amount and without a currency is verified, in
    [payment] mode and for a known customer, and the handler rejects the
    event: it throws without inserting. *)
Lemma POST_bare_checkout_is_rejected :
  verified (stripe := provider_up) secret (signed "evt_bare") bare_checkout
  /\ Stripe.type bare_checkout = "checkout.session.completed"%string
  /\ Stripe.mode (Stripe.data_object bare_checkout) = "payment"%string
  /\ Stripe.amount_total (Stripe.data_object bare_checkout) = None
  /\ find (Prisma.has_customer_id
             (Js.String_ (Stripe.customer (Stripe.data_object bare_checkout))))
          (users (db world_u_1)) = Some u_1
  /\ @Webhook.POST provider_up secret (signed "evt_bare") world_u_1
     = (Thrown (PrismaError "PrismaClientValidationError"),
        mkWorld (db world_u_1)
          [ UserFindUnique (ByStripeCustomerId "cus_123");
            PaymentCreate
              (mkPaymentData (Some "pi_5") 0 (inject_Z 0 / inject_Z 100)%Q
                 None "paid") ])
  /\ ~ (exists (row : Payment) (issued : list Call),
          @Webhook.POST provider_up secret (signed "evt_bare") world_u_1 =
          (Returned (Webhook.mkResponse None 200),
           mkWorld (mkDb (users (db world_u_1))
                         (payments (db world_u_1) ++ [row])
                         (next_user_id (db world_u_1))
                         (S (next_payment_id (db world_u_1))))
                   (calls world_u_1 ++ issued))).
Proof.
  repeat split; try reflexivity.
  intros [row [issued E]]. vm_compute in E. discriminate E.
Qed.

(** The scenario of the specification: [amount_total=4000] is recorded as
    [40.00]. *)
Example POST_records_forty :
  map (fun p => Qeq_bool (amount p) 40)
      (payments (db (snd (@Webhook.POST provider_up secret (signed "evt_paid")
                            world_u_1))))
  = [true].
Proof. vm_compute. reflexivity. Qed.

End Runs.

(** ** Concrete runs of the pages, the actions and the menu *)

Section MoreRuns.

Import Fixture.

Lemma world_two_consistent : consistent (db world_two).
Proof.
  constructor; simpl.
  - repeat constructor; simpl; intuition discriminate.
  - repeat constructor; simpl; intuition discriminate.
  - intros u [E|[E|[]]]; subst u; simpl; lia.
  - intros p [].
Qed.

Lemma world_paid_consistent : consistent (db world_paid).
Proof.
  constructor; simpl.
  - repeat constructor; simpl; intuition discriminate.
  - repeat constructor; simpl; intuition discriminate.
  - intros u [E|[E|[]]]; subst u; simpl; lia.
  - intros p [E|[]]; subst p. exists u_1. simpl. auto.
Qed.

Lemma getData_keeps_store_consistent_scenario :
  consistent
    (db (snd (@Dashboard.getData provider_up "x@y.com" "u_3" None None None
                world_two))).
Proof.
  exact (@getData_keeps_store_consistent provider_up "x@y.com" "u_3" None None
           None world_two world_two_consistent).
Defined.

Lemma getData_returns_provisioned_scenario :
  (Js.truthy (customer_of "u_1" (users (db world_bare))) = true
   /\ db (snd (@Dashboard.getData provider_up "a@b.com" "u_1" (Some "A")
                 (Some "B") None world_bare)) = db world_bare)
  \/ exists cust,
       @Stripe.customers_create_response provider_up "a@b.com" = Returned cust
       /\ customer_of "u_1"
            (users (db (snd (@Dashboard.getData provider_up "a@b.com" "u_1"
                               (Some "A") (Some "B") None world_bare))))
          = Some (Stripe.id cust).
Proof.
  exact (@getData_returns_provisioned provider_up "a@b.com" "u_1" (Some "A")
           (Some "B") None world_bare eq_refl).
Defined.

Lemma getData_completes_existing_row_scenario :
  @Dashboard.getData provider_up "a@b.com" "u_1" (Some "A") (Some "B") None
    world_bare =
    (Returned tt,
     mkWorld (mkDb [u_1; u_2] [] 2 0)
       [ UserFindUnique (ByClerkId "u_1");
         ConsoleLog "Creating stripe customer";
         StripeCustomersCreate "a@b.com";
         UserUpdate "u_1" "cus_123";
         UserFindUnique (ByClerkId "u_1") ])
  /\ find (Prisma.has_clerk_id "u_1") [u_1; u_2] = Some u_1
  /\ length [u_1; u_2] = 2%nat.
Proof.
  exact (@getData_completes_existing_row provider_up "a@b.com" "u_1" (Some "A")
           (Some "B") None world_bare bare_u_1 (Stripe.mkCustomer "cus_123")
           eq_refl eq_refl eq_refl eq_refl).
Defined.

Lemma revisit_keeps_reference_scenario :
  let visits :=
    [ mkVisit "a@b.com" (Some "A") (Some "B") None;
      mkVisit "new@b.com" None None None ] in
  fst (@revisit provider_down "u_1" visits world_u_1) = Returned tt
  /\ db (snd (@revisit provider_down "u_1" visits world_u_1)) = db world_u_1.
Proof.
  exact (@revisit_keeps_reference provider_down "u_1" _ world_u_1 eq_refl).
Defined.

Lemma getData_retry_after_failure_scenario :
  let failed :=
    @Dashboard.getData provider_down "a@b.com" "u_1" (Some "A") (Some "B")
      None empty_world in
  let retry :=
    @Dashboard.getData provider_up "a@b.com" "u_1" (Some "A") (Some "B")
      None (snd failed) in
  let direct :=
    @Dashboard.getData provider_up "a@b.com" "u_1" (Some "A") (Some "B")
      None empty_world in
  fst failed = Thrown (StripeError "api_connection_error")
  /\ fst retry = fst direct
  /\ db (snd retry) = db (snd direct).
Proof.
  exact (getData_retry_after_failure provider_down provider_up "a@b.com" "u_1"
           (Some "A") (Some "B") None empty_world
           (StripeError "api_connection_error") eq_refl eq_refl).
Defined.

Lemma DashboardLayout_provisioned_visit_scenario :
  @Dashboard.DashboardLayout provider_down nat clerk_session 0%nat world_u_1
  = (Returned (Dashboard.SidebarShell nat 0%nat),
     mkWorld (db world_u_1) [UserFindUnique (ByClerkId "u_1")]).
Proof.
  apply (@DashboardLayout_provisioned_visit provider_down nat clerk_session
           0%nat "u_1" "a@b.com"
           (Clerk.mkClerkUser [Clerk.mkEmailAddress "a@b.com"] (Some "A")
              (Some "B") "https://img.example/u_1.png"));
    try reflexivity; discriminate.
Defined.

Lemma DashboardLayout_propagates_scenario :
  exists w',
    @Dashboard.DashboardLayout provider_down nat clerk_session 0%nat
      empty_world
    = (Thrown (StripeError "api_connection_error"), w').
Proof.
  eexists.
  apply (@DashboardLayout_propagates provider_down nat clerk_session 0%nat
           "u_1" "a@b.com"
           (Clerk.mkClerkUser [Clerk.mkEmailAddress "a@b.com"] (Some "A")
              (Some "B") "https://img.example/u_1.png"));
    try reflexivity; discriminate.
Defined.

Lemma POST_redelivery_duplicates_scenario :
  exists row1 row2,
    payments
      (db (snd (@Webhook.POST provider_up secret (signed "evt_paid")
                  (snd (@Webhook.POST provider_up secret (signed "evt_paid")
                          world_u_1)))))
    = [row1; row2]
    /\ stripe_payment_id row1 = "pi_1"%string
    /\ stripe_payment_id row2 = "pi_1"%string
    /\ payment_id row1 <> payment_id row2.
Proof.
  exact (@POST_redelivery_duplicates provider_up secret (signed "evt_paid")
           world_u_1
           (checkout "payment" (Some "cus_123") "pi_1" (Some 4000%Z) "paid")
           u_1 "pi_1" "usd" eq_refl eq_refl eq_refl eq_refl eq_refl eq_refl).
Defined.

Lemma POST_keeps_store_consistent_scenario :
  consistent
    (db (snd (@Webhook.POST provider_up secret (signed "evt_paid") world_two))).
Proof.
  exact (@POST_keeps_store_consistent provider_up secret (signed "evt_paid")
           world_two world_two_consistent).
Defined.

Lemma clerk_session_id : "u_1"%string <> ""%string.
Proof. discriminate. Qed.

Lemma POST_later_deliveries_keep_view_scenario :
  fst (Billing.BillingPage clerk_session
         (snd (@Webhook.POST provider_up secret (signed "evt_unpaid")
                 world_paid)))
  = fst (Billing.BillingPage clerk_session world_paid).
Proof.
  exact (@POST_later_deliveries_keep_view provider_up secret "u_1"
           clerk_session eq_refl clerk_session_id (signed "evt_unpaid")
           world_paid paid_row eq_refl).
Defined.

Lemma POST_first_payment_decides_view_scenario :
  fst (Billing.BillingPage clerk_session
         (snd (@Webhook.POST provider_up secret (signed "evt_unpaid")
                 world_two)))
  = Returned Billing.OfferPurchase.
Proof.
  exact (@POST_first_payment_decides_view provider_up secret "u_1"
           clerk_session eq_refl clerk_session_id (signed "evt_unpaid")
           world_two
           (checkout "payment" (Some "cus_123") "pi_0" (Some 4000%Z) "unpaid")
           u_1 "pi_0" "usd" world_two_consistent eq_refl eq_refl eq_refl
           eq_refl eq_refl eq_refl eq_refl eq_refl).
Defined.

Lemma POST_incomplete_session_throws_scenario :
  exists issued,
    @Webhook.POST provider_up secret (signed "evt_free") world_u_1 =
      (Thrown (PrismaError "PrismaClientValidationError"),
       mkWorld (db world_u_1) issued).
Proof.
  apply (@POST_incomplete_session_throws provider_up secret (signed "evt_free")
           world_u_1 free_checkout u_1);
    try reflexivity.
  left. reflexivity.
Defined.

Lemma BillingPage_unauthenticated_redirects_scenario :
  Billing.BillingPage signed_out world_paid
  = (Thrown (NextRedirect "/"), world_paid).
Proof.
  exact (BillingPage_unauthenticated_redirects signed_out world_paid eq_refl).
Defined.

Lemma BillingPage_manage_iff_first_owned_row_paid_scenario :
  fst (Billing.BillingPage clerk_session world_paid)
  = Returned Billing.ManageSubscription
  <-> exists before p after,
        payments (db world_paid) = before ++ p :: after
        /\ forallb
             (fun q => negb (Prisma.owned_by (users (db world_paid)) "u_1" q))
             before = true
        /\ Prisma.owned_by (users (db world_paid)) "u_1" p = true
        /\ status p = "paid"%string.
Proof.
  exact (BillingPage_manage_iff_first_owned_row_paid clerk_session "u_1"
           world_paid eq_refl clerk_session_id).
Defined.

Lemma BillingPage_manage_needs_paid_row_scenario :
  has_paid_row "u_1" (db world_paid) = true.
Proof.
  exact (BillingPage_manage_needs_paid_row "u_1" clerk_session world_paid
           eq_refl clerk_session_id eq_refl).
Defined.

Lemma world_paid_one_row : at_most_one_row "u_1" (db world_paid).
Proof. unfold at_most_one_row. simpl. lia. Qed.

Lemma BillingPage_single_row_scenario :
  fst (Billing.BillingPage clerk_session world_paid)
  = Returned Billing.ManageSubscription
  <-> has_paid_row "u_1" (db world_paid) = true.
Proof.
  exact (BillingPage_single_row "u_1" clerk_session world_paid eq_refl
           clerk_session_id world_paid_one_row).
Defined.

Lemma createSubscription_without_customer_scenario :
  @BillingActions.createSubscription hosted_up env_unset "u_1" world_bare =
  (Thrown (JsError
     "No stripe customer id found. Please refresh the page and try again."),
   mkWorld (db world_bare)
     [ UserFindUnique (ByClerkId "u_1");
       ConsoleLog "User found:";
       ConsoleLog "Stripe customer ID:" ]).
Proof.
  exact (@createSubscription_without_customer hosted_up env_unset "u_1"
           world_bare eq_refl).
Defined.

Lemma cus_123_nonempty : "cus_123"%string <> ""%string.
Proof. discriminate. Qed.

Lemma createSubscription_redirects_scenario :
  @BillingActions.createSubscription hosted_up env_unset "u_1" world_u_1 =
  (Thrown (NextRedirect "https://checkout.test/cus_123"),
   mkWorld (db world_u_1)
     [ UserFindUnique (ByClerkId "u_1");
       ConsoleLog "User found:";
       ConsoleLog "Stripe customer ID:" ]).
Proof.
  exact (@createSubscription_redirects hosted_up env_unset "u_1" "cus_123"
           world_u_1 eq_refl cus_123_nonempty).
Defined.

Lemma getData_customer_is_own_scenario :
  Some "cus_123"%string = customer_of "u_1" (users (db world_paid)).
Proof.
  exact (getData_customer_is_own "u_1" world_paid
           (Billing.mkData "paid" (Some "cus_123")) world_paid_consistent
           eq_refl).
Defined.

Lemma UserNav_two_initials_scenario :
  exists v,
    UserNav.UserNav
      (Some (UserNav.mkUserResource (Some "Mary Ann Smith") (Some "Mary")
               [] ""))
    = Returned v
    /\ UserNav.view_fallback v = "MA"%string.
Proof.
  apply (UserNav_two_initials
           (UserNav.mkUserResource (Some "Mary Ann Smith") (Some "Mary") [] "")
           "M" "A" "ary" "nn Smith"); [reflexivity|reflexivity|discriminate].
Defined.

Lemma UserNav_undefined_initial_scenario :
  exists v,
    UserNav.UserNav (Some (UserNav.mkUserResource (Some "Ann ") None [] ""))
    = Returned v
    /\ UserNav.view_fallback v = "Aundefined"%string.
Proof.
  apply (proj2 (UserNav_undefined_initial
                  (UserNav.mkUserResource (Some "Ann ") None [] "")
                  "A" "nn" ""));
    [reflexivity|reflexivity|left; reflexivity].
Defined.

End MoreRuns.
